(** * MoodSync emotion engine: a shallow embedding of [src/ai/EmotionEngine.js]

    The development follows the class [EmotionEngine]: the fusion pipeline
    ([detectEmotion], [fuseEmotions]), the calibration and personality
    updates ([updateCalibration], [updatePersonalityProfile]), the confidence
    and agreement metrics, and the insight functions ([analyzeTrends],
    [assessWellness], [getEmotionInsights]).

    JavaScript numbers are modelled by [num]: exact rationals extended with
    the two infinities and NaN.  The special values follow IEEE 754 as
    JavaScript exposes them (0/0 is NaN, x/0 is an infinity, NaN propagates
    and compares false with everything); the rounding of binary64 arithmetic
    and the sign of zero are not modelled. *)

From Stdlib Require Import List String Ascii Bool Arith ZArith QArith Lia Lqa.
From Stdlib Require Import Permutation Sorted.
Import ListNotations.

Set Implicit Arguments.
Close Scope Q_scope.

(** ** JavaScript numbers *)

Module Num.

Inductive num : Type :=
| Fin (q : Q)
| PInf
| NInf
| NaN.

Definition zero : num := Fin 0.
Definition one : num := Fin 1.

Definition of_nat (n : nat) : num := Fin (inject_Z (Z.of_nat n)).
Definition of_Z (z : Z) : num := Fin (inject_Z z).

(** Sign of a rational, as [Qcompare] with zero. *)
Definition sgn (q : Q) : comparison := (q ?= 0)%Q.

Definition neg (a : num) : num :=
  match a with
  | Fin x => Fin (- x)
  | PInf => NInf
  | NInf => PInf
  | NaN => NaN
  end.

Definition add (a b : num) : num :=
  match a, b with
  | NaN, _ | _, NaN => NaN
  | PInf, NInf | NInf, PInf => NaN
  | PInf, _ | _, PInf => PInf
  | NInf, _ | _, NInf => NInf
  | Fin x, Fin y => Fin (x + y)
  end.

Definition sub (a b : num) : num := add a (neg b).

Definition scale_inf (pos : bool) (x : Q) : num :=
  match sgn x with
  | Eq => NaN
  | Gt => if pos then PInf else NInf
  | Lt => if pos then NInf else PInf
  end.

Definition mul (a b : num) : num :=
  match a, b with
  | NaN, _ | _, NaN => NaN
  | Fin x, Fin y => Fin (x * y)
  | Fin x, PInf | PInf, Fin x => scale_inf true x
  | Fin x, NInf | NInf, Fin x => scale_inf false x
  | PInf, PInf | NInf, NInf => PInf
  | PInf, NInf | NInf, PInf => NInf
  end.

(** Division: a finite value over zero is an infinity of the sign of the
    numerator, and 0/0 is NaN. *)
Definition div (a b : num) : num :=
  match a, b with
  | NaN, _ | _, NaN => NaN
  | Fin x, Fin y =>
      if Qeq_bool y 0
      then match sgn x with Eq => NaN | Gt => PInf | Lt => NInf end
      else Fin (x / y)
  | Fin _, PInf | Fin _, NInf => Fin 0
  | PInf, Fin y => match sgn y with Lt => NInf | _ => PInf end
  | NInf, Fin y => match sgn y with Lt => PInf | _ => NInf end
  | PInf, PInf | PInf, NInf | NInf, PInf | NInf, NInf => NaN
  end.

(** [a < b]; false as soon as one side is NaN. *)
Definition ltb (a b : num) : bool :=
  match a, b with
  | NaN, _ | _, NaN => false
  | Fin x, Fin y => negb (Qle_bool y x)
  | NInf, NInf => false
  | NInf, _ => true
  | _, NInf => false
  | PInf, _ => false
  | Fin _, PInf => true
  end.

(** [a > b]. *)
Definition gtb (a b : num) : bool := ltb b a.

(** [a === b] on numbers; NaN differs from itself. *)
Definition eqb (a b : num) : bool :=
  match a, b with
  | Fin x, Fin y => Qeq_bool x y
  | PInf, PInf | NInf, NInf => true
  | _, _ => false
  end.

(** [Math.max(a, b)] and [Math.min(a, b)]. *)
Definition max2 (a b : num) : num :=
  match a, b with
  | NaN, _ | _, NaN => NaN
  | _, _ => if ltb b a then a else b
  end.

Definition min2 (a b : num) : num :=
  match a, b with
  | NaN, _ | _, NaN => NaN
  | _, _ => if ltb a b then a else b
  end.

(** [Math.max(...l)]: minus infinity on the empty list. *)
Definition max_list (l : list num) : num := fold_left max2 l NInf.

(** [l.reduce((a, b) => a + b, 0)]. *)
Definition sum (l : list num) : num := fold_left add l zero.

(** Numeric equality of two results: the same special value, or finite
    values that are equal as rationals. *)
Definition eqv (a b : num) : Prop :=
  match a, b with
  | Fin x, Fin y => (x == y)%Q
  | PInf, PInf | NInf, NInf | NaN, NaN => True
  | _, _ => False
  end.

Definition is_finite (a : num) : bool :=
  match a with Fin _ => true | _ => false end.

(** A finite value inside the closed interval [0,1]. *)
Definition in_unit (a : num) : Prop :=
  match a with
  | Fin x => (0 <= x /\ x <= 1)%Q
  | _ => False
  end.

(** A finite value that is not negative. *)
Definition nonneg (a : num) : Prop :=
  match a with
  | Fin x => (0 <= x)%Q
  | _ => False
  end.

End Num.

Import Num.

Declare Scope num_scope.
Delimit Scope num_scope with num.
Infix "+" := Num.add : num_scope.
Infix "-" := Num.sub : num_scope.
Infix "*" := Num.mul : num_scope.
Infix "/" := Num.div : num_scope.
Infix "<?" := Num.ltb : num_scope.
Infix ">?" := Num.gtb (at level 70) : num_scope.
Infix "===" := Num.eqb (at level 70) : num_scope.
Infix "=n=" := Num.eqv (at level 70) : num_scope.

Local Open Scope string_scope.
Local Open Scope list_scope.

(** Decimal literals of the source. *)
Definition d0_01 : num := Fin (1 # 100).
Definition d0_1 : num := Fin (1 # 10).
Definition d0_2 : num := Fin (2 # 10).
Definition d0_3 : num := Fin (3 # 10).
Definition d0_4 : num := Fin (4 # 10).
Definition d0_6 : num := Fin (6 # 10).
Definition d0_7 : num := Fin (7 # 10).
Definition d0_8 : num := Fin (8 # 10).
Definition d0_9 : num := Fin (9 # 10).

(** ** JavaScript arrays, objects and exceptions *)

Module Js.

(** [a[i]] read in an arithmetic position: a missing element is
    [undefined], which arithmetic turns into NaN. *)
Definition get (a : list num) (i : nat) : num := nth i a NaN.

(** [a[i] = v]: an index past the end extends the array.  The holes this
    leaves read as [undefined], that is NaN in every arithmetic use the
    engine makes of its arrays. *)
Fixpoint set (a : list num) (i : nat) (v : num) : list num :=
  match a, i with
  | [], O => [v]
  | [], S i' => NaN :: set [] i' v
  | _ :: t, O => v :: t
  | x :: t, S i' => x :: set t i' v
  end.

(** [a.map((x, i) => f x i)]. *)
Fixpoint mapi_from {A B} (f : A -> nat -> B) (i : nat) (a : list A) : list B :=
  match a with
  | [] => []
  | x :: t => f x i :: mapi_from f (S i) t
  end.

Definition mapi {A B} (f : A -> nat -> B) (a : list A) : list B :=
  mapi_from f 0 a.

(** [a.indexOf(s)] on an array of strings: [None] stands for -1. *)
Fixpoint indexOf (a : list string) (s : string) : option nat :=
  match a with
  | [] => None
  | x :: t =>
      if String.eqb x s then Some 0
      else match indexOf t s with Some i => Some (S i) | None => None end
  end.

(** [a.indexOf(v)] on an array of numbers, with strict equality, as an
    integer: -1 when no element is equal. *)
Fixpoint indexOf_num (a : list num) (v : num) : Z :=
  match a with
  | [] => (-1)%Z
  | x :: t =>
      if (x === v)%num then 0%Z
      else match indexOf_num t v with
           | Zneg _ => (-1)%Z
           | i => (i + 1)%Z
           end
  end.

(** [a.includes(s)] where [s] may be [undefined]. *)
Definition includes (a : list string) (s : option string) : bool :=
  match s with
  | Some s => existsb (String.eqb s) a
  | None => false
  end.

(** [a.slice(-n)]: the last [n] elements. *)
Definition slice_last {A} (n : nat) (a : list A) : list A :=
  skipn (List.length a - n) a.

(** [a.slice(i, j)]. *)
Definition slice {A} (i j : nat) (a : list A) : list A :=
  firstn (j - i) (skipn i a).

(** Truthiness of a string value that may be absent. *)
Definition truthy (s : option string) : bool :=
  match s with
  | Some s => negb (String.eqb s EmptyString)
  | None => false
  end.

(** An object used as a map from property names to values: properties in
    insertion order; writing an existing property keeps its position.
    (Property names that are array indices, which an object lists first,
    do not occur among emotion labels and modality names.) *)
Fixpoint obj_set {V} (o : list (string * V)) (k : string) (v : V)
  : list (string * V) :=
  match o with
  | [] => [(k, v)]
  | (k', v') :: t =>
      if String.eqb k' k then (k', v) :: t else (k', v') :: obj_set t k v
  end.

Fixpoint obj_get {V} (o : list (string * V)) (k : string) : option V :=
  match o with
  | [] => None
  | (k', v') :: t => if String.eqb k' k then Some v' else obj_get t k
  end.

Definition obj_keys {V} (o : list (string * V)) : list string := map fst o.

(** Exceptions the engine throws itself ([Error]) or that the runtime
    raises on a property access through [undefined] ([TypeError]). *)
Inductive exn : Type :=
| Error (msg : string)
| TypeError (msg : string).

Inductive outcome (A : Type) : Type :=
| Ok (a : A)
| Throw (e : exn).
Arguments Ok {A} a.
Arguments Throw {A} e.

Definition bind {A B} (m : outcome A) (k : A -> outcome B) : outcome B :=
  match m with
  | Ok a => k a
  | Throw e => Throw e
  end.

(** [a.map(f)] where [f] may throw: the first exception aborts the loop. *)
Fixpoint mapM {A B} (f : A -> outcome B) (a : list A) : outcome (list B) :=
  match a with
  | [] => Ok []
  | x :: t => bind (f x) (fun y => bind (mapM f t) (fun ys => Ok (y :: ys)))
  end.

(** [for (let i = lo; i < hi; i++) body(i)] over a loop state. *)
Definition for_range {S} (lo hi : nat) (body : nat -> S -> S) (s : S) : S :=
  fold_left (fun st i => body i st) (seq lo (hi - lo)) s.

End Js.

Import Js.

Notation "x <- m ;; k" := (Js.bind m (fun x => k))
  (at level 61, m at next level, right associativity).

(** ** Data model *)

(** [this.emotions.primary]: the index of a label in this list is the
    position of its probability in every vector. *)
Definition primary : list string :=
  ["happy"; "sad"; "angry"; "fearful"; "surprised"; "disgusted"; "neutral"].

(** [this.contextualFactors.activity]. *)
Definition activityFactors : list string :=
  ["working"; "relaxing"; "exercising"; "commuting"; "socializing"; "sleeping"].

(** [this.calibrationData]. *)
Record CalibrationData : Type := {
  facialBias : list num;
  voiceBias : list num;
  personalityFactors : list (string * num);
  adaptationRate : num
}.

(** [this.personalityProfile]: the five traits, in the order in which the
    object is created, and the time stamp of the last update. *)
Record PersonalityProfile : Type := {
  openness : num;
  conscientiousness : num;
  extraversion : num;
  agreeableness : num;
  neuroticism : num;
  lastUpdated : string
}.

Record Feedback : Type := { correctEmotion : option string }.

(** The [context] object of a request. *)
Record Context : Type := {
  location : option string;
  activity : option string;
  startTime : option Z;
  feedback : option Feedback
}.

(** The result of one modality ([processFacialEmotion] and its siblings):
    the fields the fusion reads. *)
Module Obs.
Record t : Type := {
  probabilities : list num;
  confidence : num;
  modality : string;
  timestamp : string
}.
End Obs.

(** One entry of the emotion ranking; [emotion] is [undefined] for an index
    past the label list. *)
Record Ranked : Type := { emotion : option string; probability : num }.

Module Conf.
Record t : Type := {
  overall : num;
  modality : num;
  fusion : num;
  agreement : num
}.
End Conf.

(** The object [fuseEmotions] returns.  [primaryEmotion] is [undefined]
    when the probability vector is empty. *)
Module Res.
Record t : Type := {
  primaryEmotion : option Ranked;
  secondaryEmotions : list Ranked;
  probabilities : list num;
  confidence : Conf.t;
  modalityContributions : list (string * num);
  contextualFactors : Context;
  timestamp : string;
  processingTime : Z
}.
End Res.

(** [this.models]: a loaded model is its prediction function from the input
    tensor to the output vector, [None] is [null]. *)
Module Models.
Record t : Type := {
  facial : option (list num -> list num);
  voice : option (list num -> list num);
  text : option (list num -> list num);
  fusion : option (list num -> list num)
}.
End Models.

(** The [inputs] of a request.  A present input is given by the tensor the
    pipeline hands to the classifier (the preprocessed image, the audio
    features, the encoded text); [None] is an absent (falsy) input. *)
Module Inputs.
Record t : Type := {
  image : option (list num);
  audio : option (list num);
  text : option (list num)
}.
End Inputs.

(** The readings of the system clock a request makes. *)
Record Clock : Type := {
  startMs : Z;
  nowMs : Z;
  isoNow : string;
  hours : Z;
  weekday : Z
}.

(** A write requested from the file system by [saveCalibrationData] or
    [savePersonalityProfile]. *)
Inductive FsWrite : Type :=
| WriteCalibration (c : CalibrationData)
| WritePersonality (p : PersonalityProfile).

(** The mutable state of an initialised engine; [fsLog] lists the writes
    requested so far, latest first. *)
Record Engine : Type := {
  models : Models.t;
  calibrationData : CalibrationData;
  personalityProfile : PersonalityProfile;
  fsLog : list FsWrite
}.

(** ** Methods that only read the engine *)

(** [this.calibrationData[`${modality}Bias`]]. *)
Definition biasOf (c : CalibrationData) (modality : string) : option (list num) :=
  let key := (modality ++ "Bias")%string in
  if String.eqb key "facialBias" then Some (facialBias c)
  else if String.eqb key "voiceBias" then Some (voiceBias c)
  else None.

(** [Math.max(0, Math.min(1, x))]. *)
Definition clamp01 (x : num) : num := max2 zero (min2 one x).

Definition applyCalibratedBias (c : CalibrationData) (probabilities : list num)
    (modality : string) : list num :=
  let bias :=
    match biasOf c modality with
    | Some b => b
    | None => repeat zero (List.length probabilities)
    end in
  mapi (fun prob i =>
          let adjusted := (prob + Js.get bias i * adaptationRate c)%num in
          clamp01 adjusted)
       probabilities.

Definition mapSentimentToEmotion (sentimentProbs : list num) : list num :=
  let negative := Js.get sentimentProbs 0 in
  let neutral := Js.get sentimentProbs 1 in
  let positive := Js.get sentimentProbs 2 in
  [ positive * d0_8; negative * d0_6; negative * d0_4; negative * d0_2;
    positive * d0_3; negative * d0_3; neutral * d0_9 ]%num.

Definition processFacialEmotion (e : Engine) (image : list num) (clk : Clock)
  : outcome Obs.t :=
  match Models.facial (models e) with
  | None => Throw (Error "Facial model not loaded")
  | Some predict =>
      let probabilities := predict image in
      let calibratedProbs :=
        applyCalibratedBias (calibrationData e) probabilities "facial" in
      Ok {| Obs.probabilities := calibratedProbs;
            Obs.confidence := max_list calibratedProbs;
            Obs.modality := "facial";
            Obs.timestamp := isoNow clk |}
  end.

Definition processVoiceEmotion (e : Engine) (audioFeatures : list num)
    (clk : Clock) : outcome Obs.t :=
  match Models.voice (models e) with
  | None => Throw (Error "Voice model not loaded")
  | Some predict =>
      let probabilities := predict audioFeatures in
      let calibratedProbs :=
        applyCalibratedBias (calibrationData e) probabilities "voice" in
      Ok {| Obs.probabilities := calibratedProbs;
            Obs.confidence := max_list calibratedProbs;
            Obs.modality := "voice";
            Obs.timestamp := isoNow clk |}
  end.

Definition processTextSentiment (e : Engine) (encodedText : list num)
    (clk : Clock) : outcome Obs.t :=
  match Models.text (models e) with
  | None => Throw (Error "Text model not loaded")
  | Some predict =>
      let probabilities := predict encodedText in
      let emotionProbs := mapSentimentToEmotion probabilities in
      Ok {| Obs.probabilities := emotionProbs;
            Obs.confidence := max_list emotionProbs;
            Obs.modality := "text";
            Obs.timestamp := isoNow clk |}
  end.

Definition encodeContext (context : Context) (clk : Clock) : list num :=
  let encoded := repeat zero 20 in
  let encoded := Js.set encoded 0 (of_Z (hours clk) / Fin 24)%num in
  let encoded := Js.set encoded 1 (of_Z (weekday clk) / Fin 7)%num in
  let encoded :=
    match location context with
    | Some loc =>
        if truthy (Some loc) then
          let encoded :=
            Js.set encoded 2 (if String.eqb loc "home" then one else zero) in
          Js.set encoded 3 (if String.eqb loc "work" then one else zero)
        else encoded
    | None => encoded
    end in
  match activity context with
  | Some act =>
      if truthy (Some act) then
        match indexOf activityFactors act with
        | Some activityIndex => Js.set encoded (4 + activityIndex) one
        | None => encoded
        end
      else encoded
  | None => encoded
  end.

(** [Object.values(this.personalityProfile).slice(0, 5)]. *)
Definition traitValues (p : PersonalityProfile) : list num :=
  [openness p; conscientiousness p; extraversion p; agreeableness p;
   neuroticism p].

Definition prepareFusionInput (e : Engine) (modalityResults : list Obs.t)
    (context : Context) (clk : Clock) : list num :=
  List.concat (map Obs.probabilities modalityResults)
  ++ encodeContext context clk
  ++ traitValues (personalityProfile e).

(** [adjusted[i] *= f]. *)
Definition scaleAt (adjusted : list num) (i : nat) (f : num) : list num :=
  Js.set adjusted i (Js.get adjusted i * f)%num.

(** The first half of [applyPersonalityAdjustment]: the copy of the vector
    after the four trait factors are applied, before normalisation. *)
Definition adjustByTraits (personality : PersonalityProfile)
    (probabilities : list num) : list num :=
  let adjusted := probabilities in
  let adjusted := scaleAt adjusted 0 (one + extraversion personality * d0_2)%num in
  let adjusted := scaleAt adjusted 1 (one + neuroticism personality * d0_3)%num in
  let adjusted := scaleAt adjusted 2 (one + neuroticism personality * d0_2)%num in
  scaleAt adjusted 3 (one + neuroticism personality * d0_4)%num.

Definition applyPersonalityAdjustment (personality : PersonalityProfile)
    (probabilities : list num) : list num :=
  let adjusted := adjustByTraits personality probabilities in
  let sum := Num.sum adjusted in
  map (fun p => (p / sum)%num) adjusted.

(** [r.probabilities.indexOf(Math.max(...r.probabilities))]. *)
Definition maxIndex (r : Obs.t) : Z :=
  indexOf_num (Obs.probabilities r) (max_list (Obs.probabilities r)).

(** The two nested loops of [calculateModalityAgreement], on the pair
    [(agreements, comparisons)]. *)
Definition countAgreements (predictions : list Z) : nat * nat :=
  let n := List.length predictions in
  for_range 0 n
    (fun i st =>
       for_range (i + 1) n
         (fun j '(agreements, comparisons) =>
            ((if Z.eqb (nth i predictions 0%Z) (nth j predictions 0%Z)
              then S agreements else agreements),
             S comparisons))
         st)
    (0, 0).

Definition calculateModalityAgreement (modalityResults : list Obs.t) : num :=
  if Nat.ltb (List.length modalityResults) 2 then one
  else
    let predictions := map maxIndex modalityResults in
    let '(agreements, comparisons) := countAgreements predictions in
    if Nat.ltb 0 comparisons then (of_nat agreements / of_nat comparisons)%num
    else one.

Definition calculateFusionConfidence (modalityResults : list Obs.t)
    (finalProbs : list num) : Conf.t :=
  let modalityConfidences := map Obs.confidence modalityResults in
  let avgModalityConfidence :=
    (Num.sum modalityConfidences / of_nat (List.length modalityConfidences))%num in
  let finalConfidence := max_list finalProbs in
  let agreement := calculateModalityAgreement modalityResults in
  {| Conf.overall :=
       ((avgModalityConfidence + finalConfidence + agreement) / Fin 3)%num;
     Conf.modality := avgModalityConfidence;
     Conf.fusion := finalConfidence;
     Conf.agreement := agreement |}.

(** [indexed.sort((a, b) => b.probability - a.probability)]: a stable sort
    by decreasing probability.  An element moves in front of another one only
    when the comparator is positive; a NaN difference counts as zero. *)
Fixpoint insertRanked (x : Ranked) (sorted : list Ranked) : list Ranked :=
  match sorted with
  | [] => [x]
  | y :: t =>
      if ((probability x - probability y) >? zero)%num
      then x :: y :: t
      else y :: insertRanked x t
  end.

Definition sortRanked (l : list Ranked) : list Ranked :=
  fold_left (fun sorted x => insertRanked x sorted) l [].

Record Hierarchy : Type := {
  h_primary : option Ranked;
  h_secondary : list Ranked;
  h_all : list Ranked
}.

Definition analyzeEmotionHierarchy (probabilities : list num) : Hierarchy :=
  let emotionLabels := primary in
  let indexed :=
    mapi (fun prob index =>
            {| emotion := nth_error emotionLabels index; probability := prob |})
         probabilities in
  let indexed := sortRanked indexed in
  {| h_primary := hd_error indexed;
     h_secondary := slice 1 3 indexed;
     h_all := indexed |}.

Definition calculateModalityContributions (modalityResults : list Obs.t)
  : list (string * num) :=
  let totalConfidence :=
    fold_left (fun sum r => (sum + Obs.confidence r)%num) modalityResults zero in
  fold_left
    (fun contributions result =>
       obj_set contributions (Obs.modality result)
               (Obs.confidence result / totalConfidence)%num)
    modalityResults [].

(** [Date.now() - (context.startTime || Date.now())]. *)
Definition elapsed (context : Context) (clk : Clock) : Z :=
  match startTime context with
  | Some t => if Z.eqb t 0 then 0%Z else (nowMs clk - t)%Z
  | None => 0%Z
  end.

(** [fuseEmotions]; the [catch] block logs and rethrows, so an exception
    leaves the function unchanged. *)
Definition fuseEmotions (e : Engine) (modalityResults : list Obs.t)
    (context : Context) (clk : Clock) : outcome Res.t :=
  match Models.fusion (models e) with
  | None => Throw (Error "Fusion model not loaded")
  | Some predict =>
      let fusionInput := prepareFusionInput e modalityResults context clk in
      let finalProbabilities := predict fusionInput in
      let personalityAdjusted :=
        applyPersonalityAdjustment (personalityProfile e) finalProbabilities in
      let confidence :=
        calculateFusionConfidence modalityResults personalityAdjusted in
      let emotionAnalysis := analyzeEmotionHierarchy personalityAdjusted in
      Ok {| Res.primaryEmotion := h_primary emotionAnalysis;
            Res.secondaryEmotions := h_secondary emotionAnalysis;
            Res.probabilities := personalityAdjusted;
            Res.confidence := confidence;
            Res.modalityContributions :=
              calculateModalityContributions modalityResults;
            Res.contextualFactors := context;
            Res.timestamp := isoNow clk;
            Res.processingTime := elapsed context clk |}
  end.

(** ** Methods that update the engine

    A method that mutates [this] is a function from the engine before the
    call to the engine after it and the outcome of the call. *)

Definition M (A : Type) : Type := Engine -> Engine * outcome A.

Definition ret {A} (a : A) : M A := fun e => (e, Ok a).

Definition bindM {A B} (m : M A) (k : A -> M B) : M B :=
  fun e =>
    match m e with
    | (e', Ok a) => k a e'
    | (e', Throw x) => (e', Throw x)
    end.

(** A method that reads the engine and may throw. *)
Definition reading {A} (f : Engine -> outcome A) : M A := fun e => (e, f e).

Notation "x <~ m ;; k" := (bindM m (fun x => k))
  (at level 61, m at next level, right associativity).

Definition withCalibration (e : Engine) (c : CalibrationData) : Engine :=
  {| models := models e; calibrationData := c;
     personalityProfile := personalityProfile e; fsLog := fsLog e |}.

Definition withPersonality (e : Engine) (p : PersonalityProfile) : Engine :=
  {| models := models e; calibrationData := calibrationData e;
     personalityProfile := p; fsLog := fsLog e |}.

(** [saveCalibrationData] and [savePersonalityProfile] serialise the current
    object and hand it to the file system; a failed write is logged, never
    thrown. *)
Definition saveCalibrationData (e : Engine) : Engine :=
  {| models := models e; calibrationData := calibrationData e;
     personalityProfile := personalityProfile e;
     fsLog := WriteCalibration (calibrationData e) :: fsLog e |}.

Definition savePersonalityProfile (e : Engine) : Engine :=
  {| models := models e; calibrationData := calibrationData e;
     personalityProfile := personalityProfile e;
     fsLog := WritePersonality (personalityProfile e) :: fsLog e |}.

Definition withFacialBias (c : CalibrationData) (b : list num) : CalibrationData :=
  {| facialBias := b; voiceBias := voiceBias c;
     personalityFactors := personalityFactors c;
     adaptationRate := adaptationRate c |}.

(** [this.calibrationData.facialBias[correctIndex] += learningRate * 0.1]. *)
Definition bumpFacialBias (c : CalibrationData) (correctIndex : nat)
    (learningRate : num) : CalibrationData :=
  withFacialBias c
    (Js.set (facialBias c) correctIndex
            (Js.get (facialBias c) correctIndex + learningRate * d0_1)%num).

Definition updateCalibration (result : Res.t) (feedback : option Feedback)
  : M unit :=
  fun e =>
    match feedback with
    | None => (e, Ok tt)
    | Some fb =>
        let learningRate := adaptationRate (calibrationData e) in
        let e :=
          match correctEmotion fb with
          | Some label =>
              if truthy (Some label) then
                match indexOf primary label with
                | Some correctIndex =>
                    withCalibration e
                      (bumpFacialBias (calibrationData e) correctIndex learningRate)
                | None => e
                end
              else e
          | None => e
          end in
        (saveCalibrationData e, Ok tt)
    end.

Definition withExtraversion (p : PersonalityProfile) (x : num) : PersonalityProfile :=
  {| openness := openness p; conscientiousness := conscientiousness p;
     extraversion := x; agreeableness := agreeableness p;
     neuroticism := neuroticism p; lastUpdated := lastUpdated p |}.

Definition withNeuroticism (p : PersonalityProfile) (x : num) : PersonalityProfile :=
  {| openness := openness p; conscientiousness := conscientiousness p;
     extraversion := extraversion p; agreeableness := agreeableness p;
     neuroticism := x; lastUpdated := lastUpdated p |}.

(** The [forEach] over the keys of the profile: every property that holds a
    number is clamped; [lastUpdated], a string, is skipped. *)
Definition clampTraits (p : PersonalityProfile) : PersonalityProfile :=
  {| openness := clamp01 (openness p);
     conscientiousness := clamp01 (conscientiousness p);
     extraversion := clamp01 (extraversion p);
     agreeableness := clamp01 (agreeableness p);
     neuroticism := clamp01 (neuroticism p);
     lastUpdated := lastUpdated p |}.

Definition withLastUpdated (p : PersonalityProfile) (t : string) : PersonalityProfile :=
  {| openness := openness p; conscientiousness := conscientiousness p;
     extraversion := extraversion p; agreeableness := agreeableness p;
     neuroticism := neuroticism p; lastUpdated := t |}.

(** The body of [updatePersonalityProfile] once the primary label is read. *)
Definition evolveProfile (p : PersonalityProfile) (primaryEmotion : option string)
    (now : string) : PersonalityProfile :=
  let updateRate := d0_01 in
  let p :=
    if includes ["happy"; "excited"] primaryEmotion
    then withExtraversion p (extraversion p + updateRate)%num else p in
  let p :=
    if includes ["sad"; "angry"; "fearful"] primaryEmotion
    then withNeuroticism p (neuroticism p + updateRate)%num else p in
  let p := clampTraits p in
  withLastUpdated p now.

(** [updatePersonalityProfile]: reading [result.primaryEmotion.emotion]
    throws when the result has no primary emotion, before anything is
    changed. *)
Definition updatePersonalityProfile (result : Res.t) (context : Context)
    (clk : Clock) : M unit :=
  fun e =>
    match Res.primaryEmotion result with
    | None =>
        (e, Throw (TypeError "Cannot read properties of undefined (reading 'emotion')"))
    | Some top =>
        let p := evolveProfile (personalityProfile e) (emotion top) (isoNow clk) in
        (savePersonalityProfile (withPersonality e p), Ok tt)
    end.

Definition withStartTime (context : Context) (t : Z) : Context :=
  {| location := location context; activity := activity context;
     startTime := Some t; feedback := feedback context |}.

(** One [if (inputs.x) { ... modalityResults.push(...) }] block. *)
Definition processIfPresent (input : option (list num))
    (process : Engine -> list num -> Clock -> outcome Obs.t) (clk : Clock)
  : M (list Obs.t) :=
  reading (fun e =>
    match input with
    | Some x => r <- process e x clk ;; Ok [r]
    | None => Ok []
    end).

(** [detectEmotion] on an initialised engine. *)
Definition detectEmotion (inputs : Inputs.t) (context : Context) (clk : Clock)
  : M Res.t :=
  let context := withStartTime context (startMs clk) in
  facialResult <~ processIfPresent (Inputs.image inputs) processFacialEmotion clk ;;
  voiceResult <~ processIfPresent (Inputs.audio inputs) processVoiceEmotion clk ;;
  textResult <~ processIfPresent (Inputs.text inputs) processTextSentiment clk ;;
  let modalityResults := facialResult ++ voiceResult ++ textResult in
  fusedResult <~ reading (fun e => fuseEmotions e modalityResults context clk) ;;
  _ <~ updateCalibration fusedResult (feedback context) ;;
  _ <~ updatePersonalityProfile fusedResult context clk ;;
  ret fusedResult.

(** ** Insights

    [assessWellness], [identifyPatterns] and [getMusicRecommendation] call
    [this.identifyWellnessFactors], [this.getWellnessSuggestions],
    [this.findDailyPatterns], [this.findWeeklyPatterns],
    [this.findContextualTriggers], [this.getGenresForEmotion],
    [this.getEnergyForStrategy] and [this.getValenceForStrategy].  The class
    defines none of them: each of these properties is [undefined], and calling
    it throws a [TypeError].  [Math.sqrt], which leaves the rationals, is a
    parameter of the section below. *)

(** The value of a call to a method that the class does not define: there
    is none. *)
Inductive NoValue : Type := .

(** [this.name(...)] for a method [name] that the class does not define. *)
Definition undefinedMethod (name : string) : outcome NoValue :=
  Throw (TypeError ("this." ++ name ++ " is not a function")%string).

(** [x.primaryEmotion.emotion]. *)
Definition primaryLabel (x : Res.t) : outcome (option string) :=
  match Res.primaryEmotion x with
  | Some top => Ok (emotion top)
  | None =>
      Throw (TypeError "Cannot read properties of undefined (reading 'emotion')")
  end.

Definition positiveEmotions : list string := ["happy"; "excited"; "content"; "calm"].
Definition negativeEmotions : list string := ["sad"; "angry"; "fearful"; "frustrated"].

Definition assessAuthenticity (result : Res.t) : num :=
  let modalityAgreement := Conf.agreement (Res.confidence result) in
  let overallConfidence := Conf.overall (Res.confidence result) in
  ((modalityAgreement + overallConfidence) / Fin 2)%num.

Record CurrentEmotion : Type := {
  dominantEmotion : option Ranked;
  intensity : num;
  ce_stability : num;
  complexity : nat;
  authenticity : num
}.

Definition analyzeCurrentEmotion (result : Res.t) : CurrentEmotion :=
  {| dominantEmotion := Res.primaryEmotion result;
     intensity := Conf.overall (Res.confidence result);
     ce_stability := Conf.agreement (Res.confidence result);
     complexity := List.length (Res.secondaryEmotions result);
     authenticity := assessAuthenticity result |}.

(** The wellness level of a score. *)
Definition wellnessLevel (wellnessScore : num) : string :=
  if (wellnessScore >? d0_7)%num then "high"
  else if (wellnessScore >? d0_4)%num then "medium"
  else "low".

(** [historicalData.slice(-5).filter(d => positiveEmotions.includes(
    d.primaryEmotion.emotion)).length]; the callback throws on an entry
    without a primary emotion. *)
Definition recentPositiveCount (historicalData : list Res.t) : outcome nat :=
  flags <- mapM (fun d => label <- primaryLabel d ;;
                          Ok (includes positiveEmotions label))
                (slice_last 5 historicalData) ;;
  Ok (List.length (filter (fun b => b) flags)).

Record Patterns : Type := {
  dailyPatterns : NoValue;
  weeklyPatterns : NoValue;
  contextualTriggers : NoValue
}.

(** [identifyPatterns]: the first property of the object it builds calls an
    undefined method. *)
Definition identifyPatterns (historicalData : list Res.t) : outcome Patterns :=
  dailyPatterns <- undefinedMethod "findDailyPatterns" ;;
  weeklyPatterns <- undefinedMethod "findWeeklyPatterns" ;;
  contextualTriggers <- undefinedMethod "findContextualTriggers" ;;
  Ok {| dailyPatterns := dailyPatterns;
        weeklyPatterns := weeklyPatterns;
        contextualTriggers := contextualTriggers |}.

Record Trends : Type := {
  mostFrequent : string;
  diversity : nat;
  stability : num;
  patterns : Patterns
}.

(** The property name under which a label is counted. *)
Definition countKey (label : option string) : string :=
  match label with Some s => s | None => "undefined" end.

(** The [forEach] that fills [emotionCounts]. *)
Fixpoint countEmotions (recentEmotions : list Res.t)
    (emotionCounts : list (string * nat)) : outcome (list (string * nat)) :=
  match recentEmotions with
  | [] => Ok emotionCounts
  | data :: rest =>
      label <- primaryLabel data ;;
      let key := countKey label in
      let seen :=
        match obj_get emotionCounts key with Some n => n | None => 0 end in
      countEmotions rest (obj_set emotionCounts key (seen + 1))
  end.

Definition countOf (emotionCounts : list (string * nat)) (k : string) : nat :=
  match obj_get emotionCounts k with Some n => n | None => 0 end.

Record MusicRecommendation : Type := {
  strategy : string;
  genres : NoValue;
  energy : NoValue;
  valence : NoValue
}.

(** [strategies[emotion] || 'match']. *)
Definition strategyFor (emotion : option string) (confidence : num) : string :=
  match emotion with
  | Some e =>
      if String.eqb e "sad" then
        (if (confidence >? d0_7)%num then "uplift" else "match")
      else if String.eqb e "angry" then "release"
      else if String.eqb e "happy" then "enhance"
      else if String.eqb e "calm" then "maintain"
      else if String.eqb e "anxious" then "soothe"
      else "match"
  | None => "match"
  end.

(** [getMusicRecommendation]: the object it returns needs
    [this.getGenresForEmotion], which is undefined. *)
Definition getMusicRecommendation (emotion : option string) (confidence : num)
  : outcome MusicRecommendation :=
  let strategy := strategyFor emotion confidence in
  genres <- undefinedMethod "getGenresForEmotion" ;;
  energy <- undefinedMethod "getEnergyForStrategy" ;;
  valence <- undefinedMethod "getValenceForStrategy" ;;
  Ok {| strategy := strategy; genres := genres; energy := energy;
        valence := valence |}.

Record Lighting : Type := { brightness : nat; warmth : string; color : string }.

Definition getEnvironmentRecommendation (emotion : option string)
    (confidence : num) : Lighting :=
  let fallback := {| brightness := 50; warmth := "neutral"; color := "white" |} in
  match emotion with
  | Some e =>
      if String.eqb e "happy" then
        {| brightness := 80; warmth := "warm"; color := "yellow" |}
      else if String.eqb e "sad" then
        {| brightness := 40; warmth := "warm"; color := "blue" |}
      else if String.eqb e "angry" then
        {| brightness := 60; warmth := "cool"; color := "red" |}
      else if String.eqb e "calm" then
        {| brightness := 30; warmth := "warm"; color := "green" |}
      else fallback
  | None => fallback
  end.

Definition getActivityRecommendation (emotion : option string)
    (historicalData : list Res.t) : list string :=
  let fallback := ["take a break"; "reflect"; "hydrate"] in
  match emotion with
  | Some e =>
      if String.eqb e "sad" then ["listen to music"; "call a friend"; "take a walk"]
      else if String.eqb e "angry" then ["exercise"; "deep breathing"; "journaling"]
      else if String.eqb e "happy" then
        ["share with others"; "creative activity"; "outdoor activity"]
      else if String.eqb e "anxious" then
        ["meditation"; "gentle exercise"; "organize space"]
      else fallback
  | None => fallback
  end.

Inductive Action : Type :=
| MusicAction (m : MusicRecommendation)
| EnvironmentAction (l : Lighting)
| ActivityAction (a : list string).

Record Recommendation : Type := {
  rec_type : string;
  action : Action;
  priority : string
}.

(** [generateRecommendations]: the three [push] calls in order; the first
    one evaluates [this.getMusicRecommendation(...)]. *)
Definition generateRecommendations (result : Res.t) (historicalData : list Res.t)
  : outcome (list Recommendation) :=
  emotion <- primaryLabel result ;;
  let confidence := Conf.overall (Res.confidence result) in
  music <- getMusicRecommendation emotion confidence ;;
  let recommendations :=
    [ {| rec_type := "music"; action := MusicAction music; priority := "high" |} ] in
  let recommendations :=
    recommendations ++
    [ {| rec_type := "environment";
         action := EnvironmentAction (getEnvironmentRecommendation emotion confidence);
         priority := "medium" |} ] in
  let recommendations :=
    recommendations ++
    [ {| rec_type := "activity";
         action := ActivityAction (getActivityRecommendation emotion historicalData);
         priority := "low" |} ] in
  Ok recommendations.

Record Wellness : Type := {
  score : num;
  level : string;
  factors : NoValue;
  suggestions : NoValue
}.

(** [assessWellness]: the score is computed first; the object of the
    [return] statement then evaluates [score], [level] and
    [this.identifyWellnessFactors(...)], which is undefined. *)
Definition assessWellness (result : Res.t) (historicalData : list Res.t)
  : outcome Wellness :=
  currentEmotion <- primaryLabel result ;;
  let isPositive := includes positiveEmotions currentEmotion in
  let wellnessScore := if isPositive then d0_7 else d0_3 in
  let wellnessScore := (wellnessScore * Conf.overall (Res.confidence result))%num in
  wellnessScore <-
    (if Nat.ltb 0 (List.length historicalData) then
       recentPositive <- recentPositiveCount historicalData ;;
       Ok ((wellnessScore + of_nat recentPositive / Fin 5) / Fin 2)%num
     else Ok wellnessScore) ;;
  let score := wellnessScore in
  let level := wellnessLevel wellnessScore in
  factors <- undefinedMethod "identifyWellnessFactors" ;;
  suggestions <- undefinedMethod "getWellnessSuggestions" ;;
  Ok {| score := score; level := level; factors := factors;
        suggestions := suggestions |}.

(** The statements of [assessWellness] before its [return]: the value of
    the local [wellnessScore] when control reaches the [return] statement
    (an exception when reading a primary emotion throws before that). *)
Definition wellnessScoreOf (result : Res.t) (historicalData : list Res.t)
  : outcome num :=
  currentEmotion <- primaryLabel result ;;
  let isPositive := includes positiveEmotions currentEmotion in
  let wellnessScore := if isPositive then d0_7 else d0_3 in
  let wellnessScore := (wellnessScore * Conf.overall (Res.confidence result))%num in
  if Nat.ltb 0 (List.length historicalData) then
    recentPositive <- recentPositiveCount historicalData ;;
    Ok ((wellnessScore + of_nat recentPositive / Fin 5) / Fin 2)%num
  else Ok wellnessScore.

Section Insights.

Variable Math_sqrt : num -> num.

Definition calculateEmotionalStability (emotionData : list Res.t) : num :=
  if Nat.ltb (List.length emotionData) 2 then one
  else
    let confidences := map (fun d => Conf.overall (Res.confidence d)) emotionData in
    let n := of_nat (List.length confidences) in
    let mean := (Num.sum confidences / n)%num in
    let variance :=
      (fold_left (fun sum conf => sum + (conf - mean) * (conf - mean))%num
                 confidences zero / n)%num in
    (one - Math_sqrt variance)%num.

(** [analyzeTrends]: [None] is the [null] returned for a history of fewer
    than two entries.  Otherwise the properties of the returned object are
    evaluated in order, the last one by [this.identifyPatterns(...)]. *)
Definition analyzeTrends (historicalData : list Res.t) : outcome (option Trends) :=
  if Nat.ltb (List.length historicalData) 2 then Ok None
  else
    let recentEmotions := slice_last 10 historicalData in
    emotionCounts <- countEmotions recentEmotions [] ;;
    match obj_keys emotionCounts with
    | [] => Throw (TypeError "Reduce of empty array with no initial value")
    | k :: ks =>
        let mostFrequent :=
          fold_left
            (fun a b =>
               if Nat.ltb (countOf emotionCounts b) (countOf emotionCounts a)
               then a else b)
            ks k in
        let diversity := List.length (obj_keys emotionCounts) in
        let stability := calculateEmotionalStability recentEmotions in
        patterns <- identifyPatterns historicalData ;;
        Ok (Some {| mostFrequent := mostFrequent; diversity := diversity;
                    stability := stability; patterns := patterns |})
    end.

Record Insights : Type := {
  current : CurrentEmotion;
  trends : option Trends;
  recommendations : list Recommendation;
  wellness : Wellness
}.

Definition getEmotionInsights (result : Res.t) (historicalData : list Res.t)
  : outcome Insights :=
  let current := analyzeCurrentEmotion result in
  trends <- analyzeTrends historicalData ;;
  recommendations <- generateRecommendations result historicalData ;;
  wellness <- assessWellness result historicalData ;;
  Ok {| current := current; trends := trends;
        recommendations := recommendations; wellness := wellness |}.

End Insights.

(** ** Reference notions used in the statements *)

(** A personality profile of the data model: five traits in [0,1]. *)
Definition validProfile (p : PersonalityProfile) : Prop :=
  in_unit (openness p) /\ in_unit (conscientiousness p) /\
  in_unit (extraversion p) /\ in_unit (agreeableness p) /\
  in_unit (neuroticism p).

(** A finite value that is strictly positive. *)
Definition positive (a : num) : Prop :=
  match a with
  | Fin x => (0 < x)%Q
  | _ => False
  end.

(** The unordered pairs of a list: every element with every later one. *)
Fixpoint unorderedPairs {A} (l : list A) : list (A * A) :=
  match l with
  | [] => []
  | x :: t => map (pair x) t ++ unorderedPairs t
  end.

(** Two observations agree when their most likely label is the same. *)
Definition sameArgmax (ab : Obs.t * Obs.t) : bool :=
  Z.eqb (maxIndex (fst ab)) (maxIndex (snd ab)).

(** The agreement score in the words of the specification: 1 below two
    observations, otherwise matching pairs over all pairs. *)
Definition agreementSpec (observations : list Obs.t) : num :=
  if Nat.ltb (List.length observations) 2 then one
  else
    (of_nat (List.length (filter sameArgmax (unorderedPairs observations)))
     / of_nat (List.length (unorderedPairs observations)))%num.

(** The number of results with a positive primary label among the last five
    of a history. *)
Definition isPositiveResult (d : Res.t) : bool :=
  match Res.primaryEmotion d with
  | Some top => includes positiveEmotions (emotion top)
  | None => false
  end.

Definition positiveCountInLast5 (history : list Res.t) : nat :=
  List.length (filter isPositiveResult (slice_last 5 history)).

(** The wellness formula of the specification. *)
Definition wellnessBase (result : Res.t) : num :=
  if isPositiveResult result then d0_7 else d0_3.

Definition blendedScore (base confidence : num) (positiveCount : nat) : num :=
  ((base * confidence + of_nat positiveCount / Fin 5) / Fin 2)%num.

(** Every result of a history carries a primary emotion. *)
Definition wellFormedHistory (history : list Res.t) : Prop :=
  Forall (fun d => Res.primaryEmotion d <> None) history.

(** The engine after a sequence of [updatePersonalityProfile] calls, each
    with its own result, context and clock; a call that throws leaves the
    engine as that call left it. *)
Fixpoint afterUpdates (calls : list (Res.t * Context * Clock)) (e : Engine)
  : Engine :=
  match calls with
  | [] => e
  | (result, context, clk) :: rest =>
      afterUpdates rest (fst (updatePersonalityProfile result context clk e))
  end.

(** The effect the specification gives to feedback on modality [m]: the
    bias vector of [m] exists and its entry [i] is raised by
    [adaptationRate * 0.1]. *)
Definition biasRaisedAt (m : string) (i : nat) (before after : CalibrationData)
  : Prop :=
  exists b b',
    biasOf before m = Some b /\ biasOf after m = Some b' /\
    (Js.get b' i =n= Js.get b i + adaptationRate before * d0_1)%num.

(** ** Sample values *)

Definition neutralProfile : PersonalityProfile :=
  {| openness := Fin (1 # 2); conscientiousness := Fin (1 # 2);
     extraversion := Fin (1 # 2); agreeableness := Fin (1 # 2);
     neuroticism := Fin (1 # 2); lastUpdated := "2024-01-01T00:00:00.000Z" |}.

Definition defaultCalibration : CalibrationData :=
  {| facialBias := repeat zero 7; voiceBias := repeat zero 7;
     personalityFactors := []; adaptationRate := d0_1 |}.

(** A fusion model that answers the same vector whatever its input. *)
Definition constantModel (v : list num) : list num -> list num := fun _ => v.

Definition sadVector : list num :=
  [Fin (10 # 100); Fin (60 # 100); Fin (10 # 100); Fin (5 # 100);
   Fin (5 # 100); Fin (5 # 100); Fin (5 # 100)].

Definition zeroVector : list num := repeat zero 7.

Definition engineWith (fusionModel : option (list num -> list num)) : Engine :=
  {| models := {| Models.facial := None; Models.voice := None;
                  Models.text := None; Models.fusion := fusionModel |};
     calibrationData := defaultCalibration;
     personalityProfile := neutralProfile;
     fsLog := [] |}.

Definition sampleEngine : Engine := engineWith (Some (constantModel sadVector)).
Definition zeroEngine : Engine := engineWith (Some (constantModel zeroVector)).

Definition emptyContext : Context :=
  {| location := None; activity := None; startTime := None; feedback := None |}.

Definition sampleClock : Clock :=
  {| startMs := 1700000000000; nowMs := 1700000000012;
     isoNow := "2024-01-02T09:30:00.000Z"; hours := 9; weekday := 2 |}.

Definition noInputs : Inputs.t :=
  {| Inputs.image := None; Inputs.audio := None; Inputs.text := None |}.

(** A result with the given primary label and overall confidence. *)
Definition resultWith (label : string) (overallConfidence : num) : Res.t :=
  {| Res.primaryEmotion :=
       Some {| emotion := Some label; probability := Fin (6 # 10) |};
     Res.secondaryEmotions := [];
     Res.probabilities := sadVector;
     Res.confidence :=
       {| Conf.overall := overallConfidence; Conf.modality := Fin (8 # 10);
          Conf.fusion := Fin (6 # 10); Conf.agreement := one |};
     Res.modalityContributions := [("facial", one)];
     Res.contextualFactors := emptyContext;
     Res.timestamp := "2024-01-02T09:30:00.000Z";
     Res.processingTime := 12 |}.

Definition observation (m : string) (v : list num) : Obs.t :=
  {| Obs.probabilities := v; Obs.confidence := max_list v; Obs.modality := m;
     Obs.timestamp := "2024-01-02T09:30:00.000Z" |}.

Definition happyVector : list num :=
  [Fin (70 # 100); Fin (5 # 100); Fin (5 # 100); Fin (5 # 100);
   Fin (5 # 100); Fin (5 # 100); Fin (5 # 100)].

(** A stand-in for [Math.sqrt] in the runs below, exact on 0 and 1; none
    of them reaches it. *)
Definition sampleSqrt (x : num) : num := x.

(** ** Auxiliary notions of the proofs *)

(** The sum of a list of rationals, as [reduce] computes it. *)
Definition qsum (l : list Q) : Q := fold_left Qplus l 0%Q.

(** Pairs counted by lists: an element against the elements after it. *)
Fixpoint matchingAfter (l : list Z) : nat :=
  match l with
  | [] => 0
  | x :: t => List.length (filter (Z.eqb x) t) + matchingAfter t
  end.

Fixpoint pairsAfter (l : list Z) : nat :=
  match l with
  | [] => 0
  | _ :: t => List.length t + pairsAfter t
  end.

Definition compareWith (predictions : list Z) (i j : nat) (st : nat * nat)
  : nat * nat :=
  let '(agreements, comparisons) := st in
  ((if Z.eqb (nth i predictions 0%Z) (nth j predictions 0%Z)
    then S agreements else agreements),
   S comparisons).

(** ** More sample values *)

Definition sadFeedback : option Feedback := Some {| correctEmotion := Some "sad" |}.
Definition happyFeedback : option Feedback := Some {| correctEmotion := Some "happy" |}.
Definition joyfulFeedback : Feedback := {| correctEmotion := Some "joyful" |}.

Definition threeCalls : list (Res.t * Context * Clock) :=
  [ (resultWith "happy" d0_9, emptyContext, sampleClock);
    (resultWith "sad" d0_9, emptyContext, sampleClock);
    (resultWith "neutral" d0_9, emptyContext, sampleClock) ].

Definition fiveHappy : list Res.t := repeat (resultWith "happy" d0_9) 5.

(** The engine after [n] calls of [updateCalibration] with the same
    result and feedback. *)
Fixpoint afterFeedbacks (n : nat) (result : Res.t) (fb : option Feedback)
    (e : Engine) : Engine :=
  match n with
  | O => e
  | S k => afterFeedbacks k result fb (fst (updateCalibration result fb e))
  end.

(** A classifier output led by happy (0.30) just ahead of sad (0.29). *)
Definition closeVector : list num :=
  [Fin (30 # 100); Fin (29 # 100); Fin (10 # 100); Fin (10 # 100);
   Fin (10 # 100); Fin (6 # 100); Fin (5 # 100)].

(** An engine whose facial and voice classifiers both answer
    [closeVector], with the default calibration. *)
Definition twoModelEngine : Engine :=
  {| models := {| Models.facial := Some (constantModel closeVector);
                  Models.voice := Some (constantModel closeVector);
                  Models.text := None;
                  Models.fusion := Some (constantModel sadVector) |};
     calibrationData := defaultCalibration;
     personalityProfile := neutralProfile;
     fsLog := [] |}.

(** The same engine after feedback naming sad was given twenty times. *)
Definition biasedEngine : Engine :=
  afterFeedbacks 20 (resultWith "happy" d0_9) sadFeedback twoModelEngine.

Definition imageAndAudio : Inputs.t :=
  {| Inputs.image := Some []; Inputs.audio := Some []; Inputs.text := None |}.

(** ** Notions for the further properties *)

(** The encoding before the activity is written: time of day, day of week
    and, for a location, the two location slots. *)
Definition encodedLocation (context : Context) (clk : Clock) : list num :=
  let encoded := repeat zero 20 in
  let encoded := Js.set encoded 0 (of_Z (hours clk) / Fin 24)%num in
  let encoded := Js.set encoded 1 (of_Z (weekday clk) / Fin 7)%num in
  match location context with
  | Some loc =>
      if truthy (Some loc) then
        let encoded :=
          Js.set encoded 2 (if String.eqb loc "home" then one else zero) in
        Js.set encoded 3 (if String.eqb loc "work" then one else zero)
      else encoded
  | None => encoded
  end.


(** The rational value of a finite number. *)
Definition qval (a : num) : Q :=
  match a with
  | Fin q => q
  | _ => 0%Q
  end.

(** Ranked entries with finite probabilities, the first at least as likely
    as the second. *)
Definition atLeastAsLikely (a b : Ranked) : Prop :=
  is_finite (probability a) = true /\ is_finite (probability b) = true /\
  (qval (probability b) <= qval (probability a))%Q.

(** The entry that leads the ranking after one more insertion. *)
Definition stepBest (best : option Ranked) (x : Ranked) : option Ranked :=
  match best with
  | None => Some x
  | Some y =>
      if ((probability x - probability y) >? zero)%num then Some x else Some y
  end.

(** The label given to position [index] of a probability vector. *)
Definition labelled (prob : num) (index : nat) : Ranked :=
  {| emotion := nth_error primary index; probability := prob |}.



(** An outcome that is a thrown [TypeError]. *)
Definition throwsTypeError {A} (o : outcome A) : Prop :=
  exists msg, o = Throw (TypeError msg).

(** ** Text encoding ([encodeText], [getTokenId])

    Strings are sequences of ASCII characters here: [toLowerCase] is the
    JavaScript method on such text. *)

Definition lowerAscii (c : ascii) : ascii :=
  let n := nat_of_ascii c in
  if Nat.leb 65 n && Nat.leb n 90 then ascii_of_nat (n + 32) else c.

(** [s.toLowerCase()]. *)
Fixpoint toLowerCase (s : string) : string :=
  match s with
  | EmptyString => EmptyString
  | String c rest => String (lowerAscii c) (toLowerCase rest)
  end.

(** [s.split(' ')]: the empty string gives one empty token, and two
    neighbouring spaces give an empty token between them. *)
Fixpoint splitOnSpace (s : string) : list string :=
  match s with
  | EmptyString => [EmptyString]
  | String c rest =>
      if Ascii.eqb c " " then EmptyString :: splitOnSpace rest
      else match splitOnSpace rest with
           | token :: tokens => String c token :: tokens
           | [] => [String c EmptyString]
           end
  end.

(** The [vocab] object of [getTokenId]. *)
Definition vocab : list (string * nat) :=
  [("happy", 1); ("sad", 2); ("angry", 3); ("love", 4); ("hate", 5);
   ("good", 6); ("bad", 7); ("great", 8); ("terrible", 9); ("amazing", 10)].

(** The names every object literal inherits from [Object.prototype]: the
    lookup [vocab[token]] finds them although [vocab] does not list them. *)
Definition inheritedNames : list string :=
  ["constructor"; "__proto__"; "hasOwnProperty"; "isPrototypeOf";
   "propertyIsEnumerable"; "toLocaleString"; "toString"; "valueOf";
   "__defineGetter__"; "__defineSetter__"; "__lookupGetter__";
   "__lookupSetter__"].

(** What [vocab[token] || 0] evaluates to: a number, or, for an inherited
    name, the inherited function or object, which is truthy. *)
Inductive TokenValue : Type :=
| TokenId (n : nat)
| InheritedValue (property : string).

Definition getTokenId (token : string) : TokenValue :=
  match obj_get vocab token with
  | Some n => TokenId n
  | None =>
      if existsb (String.eqb token) inheritedNames
      then InheritedValue token
      else TokenId 0
  end.

(** [encodeText]: at most 128 tokens of the lower-cased text, encoded, then
    padded with 0 up to 128 entries. *)
Definition encodeText (text : string) : list TokenValue :=
  let tokens := Js.slice 0 128 (splitOnSpace (toLowerCase text)) in
  let encoded := map getTokenId tokens in
  encoded ++ repeat (TokenId 0) (128 - List.length encoded).

(** ** Sample values for the further properties *)

Definition homeWorking : Context :=
  {| location := Some "home"; activity := Some "working"; startTime := None;
     feedback := None |}.

Definition facialReading : Obs.t := observation "facial" happyVector.
Definition voiceReading : Obs.t := observation "voice" sadVector.

Definition happyRates : list Q :=
  [(70 # 100)%Q; (5 # 100)%Q; (5 # 100)%Q; (5 # 100)%Q; (5 # 100)%Q;
   (5 # 100)%Q; (5 # 100)%Q].



(** * Properties *)

(** ** Numbers *)

Lemma eqv_refl (a : num) : (a =n= a)%num.
Proof. destruct a; simpl; auto. reflexivity. Qed.

Lemma clamp01_unit (q : Q) : in_unit (clamp01 (Fin q)).
Proof.
  unfold clamp01, max2, min2, one, zero, ltb.
  destruct (Qle_bool q 1) eqn:Hhi; simpl.
  - destruct (Qle_bool 0 q) eqn:Hlo; simpl.
    + split; apply Qle_bool_iff; assumption.
    + split; lra.
  - split; lra.
Qed.

Lemma clamp01_fixes_unit (x : num) : in_unit x -> clamp01 x = x.
Proof.
  destruct x as [q | | |]; simpl; try contradiction.
  intros [Hlo Hhi].
  unfold clamp01, max2, min2, one, zero, ltb.
  apply Qle_bool_iff in Hlo, Hhi.
  rewrite Hhi; simpl. rewrite Hlo; simpl. reflexivity.
Qed.

Lemma in_unit_finite (x : num) : in_unit x -> exists q, x = Fin q.
Proof. destruct x; simpl; try contradiction. eauto. Qed.

Lemma clamp01_after_rate (x : num) : in_unit x -> in_unit (clamp01 (x + d0_01)%num).
Proof.
  intros Hx. destruct (in_unit_finite x Hx) as [q ->].
  simpl. apply clamp01_unit.
Qed.

(** ** Personality evolution *)

Lemma clampTraits_fixes_valid (p : PersonalityProfile) :
  validProfile p -> clampTraits p = p.
Proof.
  destruct p as [o c x a n t]. unfold validProfile, clampTraits; simpl.
  intros (Ho & Hc & Hx & Ha & Hn).
  rewrite !clamp01_fixes_unit by assumption. reflexivity.
Qed.

Lemma evolveProfile_valid (p : PersonalityProfile) (label : option string)
    (now : string) :
  validProfile p -> validProfile (evolveProfile p label now).
Proof.
  destruct p as [o c x a n t]. unfold validProfile, evolveProfile; simpl.
  intros (Ho & Hc & Hx & Ha & Hn).
  destruct (includes ["happy"; "excited"] label),
           (includes ["sad"; "angry"; "fearful"] label); simpl;
    repeat split;
    first [ apply clamp01_after_rate; assumption
          | rewrite clamp01_fixes_unit by assumption; assumption ].
Qed.

Lemma evolveProfile_frame (p : PersonalityProfile) (label : option string)
    (now : string) :
  validProfile p ->
  openness (evolveProfile p label now) = openness p /\
  conscientiousness (evolveProfile p label now) = conscientiousness p /\
  agreeableness (evolveProfile p label now) = agreeableness p.
Proof.
  destruct p as [o c x a n t]. unfold validProfile, evolveProfile; simpl.
  intros (Ho & Hc & Hx & Ha & Hn).
  destruct (includes ["happy"; "excited"] label),
           (includes ["sad"; "angry"; "fearful"] label); simpl;
    repeat split; apply clamp01_fixes_unit; assumption.
Qed.


Lemma updatePersonalityProfile_cases (result : Res.t) (context : Context)
    (clk : Clock) (e : Engine) :
  (Res.primaryEmotion result = None /\
   exists x, updatePersonalityProfile result context clk e = (e, Throw x)) \/
  (exists top,
     Res.primaryEmotion result = Some top /\
     updatePersonalityProfile result context clk e =
       (savePersonalityProfile
          (withPersonality e
             (evolveProfile (personalityProfile e) (emotion top) (isoNow clk))),
        Ok tt)).
Proof.
  unfold updatePersonalityProfile.
  destruct (Res.primaryEmotion result) as [top |].
  - right. exists top. split; reflexivity.
  - left. split; [reflexivity | eexists; reflexivity].
Qed.

Lemma updatePersonalityProfile_valid (result : Res.t) (context : Context)
    (clk : Clock) (e : Engine) :
  validProfile (personalityProfile e) ->
  validProfile
    (personalityProfile (fst (updatePersonalityProfile result context clk e))).
Proof.
  intros Hv.
  destruct (updatePersonalityProfile_cases result context clk e)
    as [[_ [x ->]] | [top [_ ->]]]; simpl.
  - assumption.
  - apply evolveProfile_valid; assumption.
Qed.

(** C4: starting from a profile whose five traits lie in [0,1], the traits
    lie in [0,1] after any sequence of [updatePersonalityProfile] calls,
    whatever results, contexts and clock readings the calls are given. *)
Theorem traits_stay_in_unit_interval :
  forall (calls : list (Res.t * Context * Clock)) (e : Engine),
    validProfile (personalityProfile e) ->
    validProfile (personalityProfile (afterUpdates calls e)).
Proof.
  induction calls as [| [[result context] clk] rest IH]; intros e Hv; simpl.
  - assumption.
  - apply IH. apply updatePersonalityProfile_valid. assumption.
Qed.

(** C10: on a profile whose traits lie in [0,1], one call of
    [updatePersonalityProfile] returns openness, conscientiousness and
    agreeableness unchanged, whatever the primary emotion of the result; the
    calibration data and the models are untouched as well. *)
Theorem update_leaves_other_traits :
  forall (result : Res.t) (context : Context) (clk : Clock) (e : Engine),
    validProfile (personalityProfile e) ->
    let e' := fst (updatePersonalityProfile result context clk e) in
    openness (personalityProfile e') = openness (personalityProfile e) /\
    conscientiousness (personalityProfile e')
      = conscientiousness (personalityProfile e) /\
    agreeableness (personalityProfile e') = agreeableness (personalityProfile e) /\
    calibrationData e' = calibrationData e /\
    models e' = models e.
Proof.
  intros result context clk e Hv e'. subst e'.
  destruct (updatePersonalityProfile_cases result context clk e)
    as [[_ [x ->]] | [top [_ ->]]]; simpl.
  - repeat split; reflexivity.
  - destruct (evolveProfile_frame (emotion top) (isoNow clk) Hv) as (Ho & Hc & Ha).
    repeat split; assumption.
Qed.

(** ** Array writes *)

Lemma get_set_same (a : list num) (i : nat) (v : num) :
  Js.get (Js.set a i v) i = v.
Proof.
  unfold Js.get. revert a. induction i as [| i IH]; intros [| x t]; simpl; auto.
Qed.

Lemma get_set_other (a : list num) (i j : nat) (v : num) :
  j <> i -> Js.get (Js.set a i v) j = Js.get a j.
Proof.
  unfold Js.get. revert a j.
  induction i as [| i IH]; intros [| x t] [| j] Hne; simpl; try congruence.
  - destruct j; reflexivity.
  - rewrite IH by congruence. destruct j; reflexivity.
  - apply IH. congruence.
Qed.

Lemma length_set (a : list num) (i : nat) (v : num) :
  i < List.length a -> List.length (Js.set a i v) = List.length a.
Proof.
  revert a. induction i as [| i IH]; intros [| x t] Hlt; simpl in *; try lia.
  rewrite IH by lia. reflexivity.
Qed.

(** ** Calibration feedback *)

Lemma recognised_label_truthy (label : string) (i : nat) :
  indexOf primary label = Some i -> truthy (Some label) = true.
Proof.
  destruct label as [| ch rest]; simpl.
  - discriminate.
  - reflexivity.
Qed.

Lemma updateCalibration_recognised (result : Res.t) (label : string) (i : nat)
    (e : Engine) :
  indexOf primary label = Some i ->
  updateCalibration result (Some {| correctEmotion := Some label |}) e =
    (saveCalibrationData
       (withCalibration e
          (bumpFacialBias (calibrationData e) i (adaptationRate (calibrationData e)))),
     Ok tt).
Proof.
  intros Hi. unfold updateCalibration. cbn [correctEmotion].
  rewrite (recognised_label_truthy label Hi), Hi. reflexivity.
Qed.

(** C2, as the code has it: feedback naming a recognised label raises the
    FACIAL bias at the index of the label by [adaptationRate * 0.1], for
    every result (whatever modalities produced it); no other entry of the
    facial bias changes, and the voice bias, the adaptation rate and the
    personality profile are as before. *)
Theorem feedback_raises_facial_bias_only :
  forall (result : Res.t) (label : string) (i : nat) (e : Engine),
    indexOf primary label = Some i ->
    let c := calibrationData e in
    let run := updateCalibration result (Some {| correctEmotion := Some label |}) e in
    let c' := calibrationData (fst run) in
    snd run = Ok tt /\
    Js.get (facialBias c') i
      = (Js.get (facialBias c) i + adaptationRate c * d0_1)%num /\
    (forall j, j <> i -> Js.get (facialBias c') j = Js.get (facialBias c) j) /\
    (i < List.length (facialBias c) ->
     List.length (facialBias c') = List.length (facialBias c)) /\
    voiceBias c' = voiceBias c /\
    biasOf c' "voice" = biasOf c "voice" /\
    biasOf c' "text" = biasOf c "text" /\
    biasOf c' "biometric" = biasOf c "biometric" /\
    personalityFactors c' = personalityFactors c /\
    adaptationRate c' = adaptationRate c /\
    personalityProfile (fst run) = personalityProfile e.
Proof.
  intros result label i e Hi c run c'. subst c run c'.
  rewrite (updateCalibration_recognised result label e Hi). simpl.
  repeat split.
  - apply get_set_same.
  - intros j Hne. apply get_set_other. assumption.
  - intros Hlt. apply length_set. assumption.
Qed.

(** C6, as the code has it: feedback whose label is not a primary label
    raises no error; the label is ignored, the calibration data are
    unchanged and written back as they are.  Absent feedback changes
    nothing and raises no error. *)
Theorem unknown_label_is_ignored :
  forall (result : Res.t) (fb : Feedback) (e : Engine),
    (forall label, correctEmotion fb = Some label -> indexOf primary label = None) ->
    let run := updateCalibration result (Some fb) e in
    snd run = Ok tt /\
    calibrationData (fst run) = calibrationData e /\
    personalityProfile (fst run) = personalityProfile e /\
    fsLog (fst run) = WriteCalibration (calibrationData e) :: fsLog e /\
    updateCalibration result None e = (e, Ok tt).
Proof.
  intros result [[label |]] e Hunknown run; subst run;
    unfold updateCalibration; cbn [correctEmotion].
  - rewrite (Hunknown label eq_refl).
    destruct (truthy (Some label)); simpl; repeat split; reflexivity.
  - simpl. repeat split; reflexivity.
Qed.

(** ** Sums and normalisation *)

Lemma sum_finite_acc (qs : list Q) (a : Q) :
  fold_left Num.add (map Fin qs) (Fin a) = Fin (fold_left Qplus qs a).
Proof.
  revert a. induction qs as [| q qs IH]; intros a; simpl.
  - reflexivity.
  - apply IH.
Qed.

Lemma sum_finite (qs : list Q) : Num.sum (map Fin qs) = Fin (qsum qs).
Proof. apply sum_finite_acc. Qed.

Lemma qsum_acc (qs : list Q) (a : Q) :
  (fold_left Qplus qs a == a + qsum qs)%Q.
Proof.
  unfold qsum. revert a. induction qs as [| q qs IH]; intros a; simpl.
  - lra.
  - rewrite (IH (a + q)%Q), (IH (0 + q)%Q). lra.
Qed.

Lemma qsum_cons (q : Q) (qs : list Q) : (qsum (q :: qs) == q + qsum qs)%Q.
Proof. unfold qsum at 1. simpl. rewrite qsum_acc. lra. Qed.

Lemma qsum_nonneg (qs : list Q) :
  Forall (fun q => (0 <= q)%Q) qs -> (0 <= qsum qs)%Q.
Proof.
  induction 1 as [| q qs Hq _ IH].
  - unfold qsum; simpl. lra.
  - rewrite qsum_cons. lra.
Qed.

Lemma qsum_scaled (qs : list Q) (s : Q) :
  ~ (s == 0)%Q ->
  (qsum (map (fun x => x / s) qs) == qsum qs / s)%Q.
Proof.
  intros Hs. induction qs as [| q qs IH].
  - unfold qsum; simpl. field. assumption.
  - simpl map. rewrite !qsum_cons, IH. field. assumption.
Qed.

Lemma nonneg_values (l : list num) :
  Forall nonneg l ->
  exists qs, l = map Fin qs /\ Forall (fun q => (0 <= q)%Q) qs.
Proof.
  induction 1 as [| x l Hx _ (qs & -> & Hqs)].
  - exists []. split; [reflexivity | constructor].
  - destruct x as [q | | |]; simpl in Hx; try contradiction.
    exists (q :: qs). split; [reflexivity | constructor; assumption].
Qed.

Lemma divide_finite (qs : list Q) (s : Q) :
  ~ (s == 0)%Q ->
  map (fun a => (a / Fin s)%num) (map Fin qs) = map Fin (map (fun x => (x / s)%Q) qs).
Proof.
  intros Hs. rewrite !map_map. apply map_ext. intros q. simpl.
  destruct (Qeq_bool s 0) eqn:E.
  - apply Qeq_bool_eq in E. contradiction.
  - reflexivity.
Qed.

(** Dividing non-negative values by their positive sum gives non-negative
    values that add up to one. *)
Lemma normalise_finite (qs : list Q) :
  Forall (fun q => (0 <= q)%Q) qs ->
  (0 < qsum qs)%Q ->
  let out := map (fun a => (a / Num.sum (map Fin qs))%num) (map Fin qs) in
  (Num.sum out =n= one)%num /\ Forall nonneg out.
Proof.
  intros Hqs Hpos out. subst out.
  assert (Hs : ~ (qsum qs == 0)%Q) by lra.
  rewrite sum_finite, (divide_finite qs Hs), sum_finite. split.
  - simpl. rewrite (qsum_scaled qs Hs). field. assumption.
  - apply Forall_forall. intros x Hin.
    apply in_map_iff in Hin. destruct Hin as (y & <- & Hy).
    apply in_map_iff in Hy. destruct Hy as (q & <- & Hq).
    simpl. rewrite Forall_forall in Hqs. specialize (Hqs q Hq).
    apply Qle_shift_div_l; lra.
Qed.

Lemma factor_keeps_order (q t c : Q) :
  (0 <= q)%Q -> (0 <= t)%Q -> (0 <= c)%Q -> (q <= q * (1 + t * c))%Q.
Proof.
  intros Hq Ht Hc.
  assert (H : (0 <= q * (t * c))%Q)
    by (apply Qmult_le_0_compat; [| apply Qmult_le_0_compat]; assumption).
  lra.
Qed.

(** C3: on a vector whose entries are not negative and whose sum is
    positive, and a profile with traits in [0,1], [applyPersonalityAdjustment]
    multiplies entry 0 (happy) by [1 + extraversion * 0.2], entries 1, 2 and
    3 (sad, angry, fearful) by [1 + neuroticism * 0.3], [* 0.2] and [* 0.4],
    keeps the other entries, and divides all of them by the sum of these
    values; the returned vector sums to 1 (exactly, in exact arithmetic) and
    has no negative entry. *)
Theorem personality_adjustment_normalises :
  forall (p : PersonalityProfile) (p0 p1 p2 p3 : num) (rest : list num),
    validProfile p ->
    Forall nonneg (p0 :: p1 :: p2 :: p3 :: rest) ->
    positive (Num.sum (p0 :: p1 :: p2 :: p3 :: rest)) ->
    let adjusted :=
      (p0 * (one + extraversion p * d0_2) ::
       p1 * (one + neuroticism p * d0_3) ::
       p2 * (one + neuroticism p * d0_2) ::
       p3 * (one + neuroticism p * d0_4) :: rest)%num in
    let out := applyPersonalityAdjustment p (p0 :: p1 :: p2 :: p3 :: rest) in
    out = map (fun a => (a / Num.sum adjusted)%num) adjusted /\
    (Num.sum out =n= one)%num /\
    Forall nonneg out.
Proof.
  intros p p0 p1 p2 p3 rest Hp Hnn Hpos adjusted out.
  assert (Hout : out = map (fun a => (a / Num.sum adjusted)%num) adjusted)
    by reflexivity.
  split; [exact Hout |]. rewrite Hout. clear Hout out. subst adjusted.
  destruct Hp as (_ & _ & Hx & _ & Hn).
  destruct (extraversion p) as [x | | |]; simpl in Hx; try contradiction.
  destruct (neuroticism p) as [n | | |]; simpl in Hn; try contradiction.
  destruct (nonneg_values Hnn) as (qs & Heq & Hqs).
  destruct qs as [| q0 [| q1 [| q2 [| q3 qr]]]]; try discriminate.
  injection Heq as -> -> -> -> ->.
  change (positive (Num.sum (map Fin (q0 :: q1 :: q2 :: q3 :: qr)))) in Hpos.
  rewrite sum_finite in Hpos. simpl in Hpos.
  inversion Hqs as [| ? ? H0 Hqs1]; subst.
  inversion Hqs1 as [| ? ? H1 Hqs2]; subst.
  inversion Hqs2 as [| ? ? H2 Hqs3]; subst.
  inversion Hqs3 as [| ? ? H3 Hqr]; subst.
  pose proof (factor_keeps_order (c := 2 # 10) H0 (proj1 Hx)) as F0.
  pose proof (factor_keeps_order (c := 3 # 10) H1 (proj1 Hn)) as F1.
  pose proof (factor_keeps_order (c := 2 # 10) H2 (proj1 Hn)) as F2.
  pose proof (factor_keeps_order (c := 4 # 10) H3 (proj1 Hn)) as F3.
  assert (C2 : (0 <= 2 # 10)%Q) by lra.
  assert (C3 : (0 <= 3 # 10)%Q) by lra.
  assert (C4 : (0 <= 4 # 10)%Q) by lra.
  specialize (F0 C2). specialize (F1 C3). specialize (F2 C2). specialize (F3 C4).
  set (aq := ((q0 * (1 + x * (2 # 10))) :: (q1 * (1 + n * (3 # 10))) ::
              (q2 * (1 + n * (2 # 10))) :: (q3 * (1 + n * (4 # 10))) :: qr)%Q).
  change ((Num.sum (map (fun a => (a / Num.sum (map Fin aq))%num) (map Fin aq))
           =n= one)%num /\
          Forall nonneg (map (fun a => (a / Num.sum (map Fin aq))%num) (map Fin aq))).
  pose proof (qsum_nonneg Hqr) as Hr.
  apply normalise_finite.
  - subst aq. repeat constructor; try lra. assumption.
  - subst aq. rewrite !qsum_cons in *. lra.
Qed.

Lemma divide_by_zero_not_finite (x : num) (s : Q) :
  (s == 0)%Q -> is_finite (x / Fin s)%num = false.
Proof.
  intros Hs. destruct x as [a | | |]; simpl.
  - apply Qeq_bool_iff in Hs. rewrite Hs. destruct (sgn a); reflexivity.
  - destruct (sgn s); reflexivity.
  - destruct (sgn s); reflexivity.
  - reflexivity.
Qed.

Lemma fuseEmotions_loaded (e : Engine) (modalityResults : list Obs.t)
    (context : Context) (clk : Clock) (predict : list num -> list num) :
  Models.fusion (models e) = Some predict ->
  exists r,
    fuseEmotions e modalityResults context clk = Ok r /\
    Res.probabilities r =
      applyPersonalityAdjustment (personalityProfile e)
        (predict (prepareFusionInput e modalityResults context clk)) /\
    Res.confidence r =
      calculateFusionConfidence modalityResults (Res.probabilities r).
Proof.
  intros Hm. unfold fuseEmotions. rewrite Hm.
  eexists. split; [reflexivity |]. split; reflexivity.
Qed.

(** C7, as the code has it: when the vector the fusion model returns has a
    post-adjustment sum of zero, nothing is thrown.  [fuseEmotions] returns a
    result whose probability vector is the adjusted vector divided by zero:
    of the same length as the adjusted vector and without any finite
    entry. *)
Theorem zero_sum_is_not_rejected :
  forall (e : Engine) (modalityResults : list Obs.t) (context : Context)
         (clk : Clock) (predict : list num -> list num),
    Models.fusion (models e) = Some predict ->
    let fused := predict (prepareFusionInput e modalityResults context clk) in
    let adjusted := adjustByTraits (personalityProfile e) fused in
    (Num.sum adjusted =n= zero)%num ->
    exists r,
      fuseEmotions e modalityResults context clk = Ok r /\
      Res.probabilities r = applyPersonalityAdjustment (personalityProfile e) fused /\
      List.length (Res.probabilities r) = List.length adjusted /\
      Forall (fun x => is_finite x = false) (Res.probabilities r).
Proof.
  intros e modalityResults context clk predict Hm fused adjusted Hzero.
  destruct (fuseEmotions_loaded e modalityResults context clk Hm)
    as (r & Hr & Hp & _).
  exists r. split; [exact Hr |]. split; [exact Hp |].
  rewrite Hp. unfold applyPersonalityAdjustment.
  fold fused. fold adjusted.
  destruct (Num.sum adjusted) as [s | | |]; simpl in Hzero; try contradiction.
  split.
  - apply length_map.
  - apply Forall_forall. intros y Hin.
    apply in_map_iff in Hin. destruct Hin as (x & <- & _).
    apply divide_by_zero_not_finite. assumption.
Qed.

(** ** The pipeline without observations *)

Lemma insertRanked_not_nil (x : Ranked) (sorted : list Ranked) :
  insertRanked x sorted <> [].
Proof.
  destruct sorted as [| y t]; simpl.
  - discriminate.
  - match goal with |- context [if ?c then _ else _] => destruct c end;
      discriminate.
Qed.

Lemma sortRanked_not_nil (l : list Ranked) : l <> [] -> sortRanked l <> [].
Proof.
  unfold sortRanked.
  assert (Hacc : forall l acc,
             acc <> [] -> fold_left (fun s x => insertRanked x s) l acc <> []).
  { clear l. induction l as [| x l IH]; intros acc Hacc; simpl.
    - assumption.
    - apply IH. apply insertRanked_not_nil. }
  destruct l as [| x l]; intros Hl.
  - contradiction.
  - simpl. apply Hacc. discriminate.
Qed.

Lemma set_not_nil (a : list num) (i : nat) (v : num) : Js.set a i v <> [].
Proof. destruct a, i; simpl; discriminate. Qed.

Lemma applyPersonalityAdjustment_not_nil (p : PersonalityProfile) (v : list num) :
  applyPersonalityAdjustment p v <> [].
Proof.
  unfold applyPersonalityAdjustment, adjustByTraits.
  set (a := scaleAt _ 2 _). unfold scaleAt at 1.
  intros Hnil. apply map_eq_nil in Hnil. exact (set_not_nil _ _ _ Hnil).
Qed.

Lemma analyzeEmotionHierarchy_primary (v : list num) :
  v <> [] -> exists top, h_primary (analyzeEmotionHierarchy v) = Some top.
Proof.
  intros Hv. unfold analyzeEmotionHierarchy; simpl.
  match goal with |- context [sortRanked ?l] => assert (Hl : l <> []) end.
  { destruct v; [contradiction | discriminate]. }
  apply sortRanked_not_nil in Hl.
  match goal with |- context [sortRanked ?l] => destruct (sortRanked l) end.
  - contradiction.
  - simpl. eauto.
Qed.

Lemma updateCalibration_never_throws (result : Res.t) (fb : option Feedback)
    (e : Engine) :
  snd (updateCalibration result fb e) = Ok tt /\
  models (fst (updateCalibration result fb e)) = models e /\
  personalityProfile (fst (updateCalibration result fb e)) = personalityProfile e.
Proof.
  unfold updateCalibration. destruct fb as [[[label |]] |]; cbn [correctEmotion].
  - destruct (truthy (Some label)); [destruct (indexOf primary label) |];
      repeat split; reflexivity.
  - repeat split; reflexivity.
  - repeat split; reflexivity.
Qed.

(** C1, as the code has it: a request without any observation is not
    rejected for lack of input.  When the fusion model is null,
    [fuseEmotions] throws [Error('Fusion model not loaded')]; otherwise it
    returns a result computed from the context and personality features
    alone, with agreement 1, no modality contribution, and NaN (0/0) as
    modality and overall confidence, and [detectEmotion] without inputs
    returns that result. *)
Theorem no_observation_still_fuses :
  forall (e : Engine) (context : Context) (clk : Clock),
    match Models.fusion (models e) with
    | None =>
        fuseEmotions e [] context clk = Throw (Error "Fusion model not loaded")
    | Some predict =>
        (exists r,
            fuseEmotions e [] context clk = Ok r /\
            Res.probabilities r =
              applyPersonalityAdjustment (personalityProfile e)
                (predict (encodeContext context clk
                          ++ traitValues (personalityProfile e))) /\
            Conf.agreement (Res.confidence r) = one /\
            Conf.modality (Res.confidence r) = NaN /\
            Conf.overall (Res.confidence r) = NaN /\
            Res.modalityContributions r = []) /\
        (exists e' r,
            detectEmotion noInputs context clk e = (e', Ok r) /\
            fuseEmotions e [] (withStartTime context (startMs clk)) clk = Ok r)
    end.
Proof.
  intros e context clk.
  destruct (Models.fusion (models e)) as [predict |] eqn:Hm.
  - split.
    + unfold fuseEmotions. rewrite Hm. eexists. split; [reflexivity |].
      repeat split; reflexivity.
    + unfold detectEmotion, processIfPresent, reading, bindM, ret; simpl.
      set (context' := withStartTime context (startMs clk)).
      destruct (fuseEmotions_loaded e [] context' clk Hm) as (r & Hr & Hp & _).
      rewrite Hr.
      destruct (updateCalibration_never_throws r (feedback context) e)
        as (Hok & _ & Hpers).
      change (feedback context') with (feedback context).
      destruct (updateCalibration r (feedback context) e) as [e1 o1].
      simpl in Hok, Hpers. subst o1.
      assert (Htop : exists top, Res.primaryEmotion r = Some top).
      { unfold fuseEmotions in Hr. rewrite Hm in Hr. injection Hr as <-. simpl.
        apply analyzeEmotionHierarchy_primary.
        apply applyPersonalityAdjustment_not_nil. }
      destruct Htop as (top & Htop).
      unfold updatePersonalityProfile. rewrite Htop.
      eexists. exists r. split; reflexivity.
  - unfold fuseEmotions. rewrite Hm. reflexivity.
Qed.

(** ** Agreement between modalities *)

Lemma inner_loop (predictions suf : list Z) (i : nat) :
  forall (k a c : nat),
    (forall m, m < List.length suf ->
               nth (k + m) predictions 0%Z = nth m suf 0%Z) ->
    fold_left (fun st j => compareWith predictions i j st)
              (seq k (List.length suf)) (a, c)
    = (a + List.length (filter (Z.eqb (nth i predictions 0%Z)) suf),
       c + List.length suf).
Proof.
  induction suf as [| y t IH]; intros k a c Hnth; simpl.
  - f_equal; lia.
  - rewrite (IH (S k)).
    + pose proof (Hnth 0 (Nat.lt_0_succ _)) as H0.
      rewrite Nat.add_0_r in H0. simpl in H0. rewrite H0.
      destruct (Z.eqb (nth i predictions 0%Z) y); simpl; f_equal; lia.
    + intros m Hm. specialize (Hnth (S m)).
      rewrite Nat.add_succ_r in Hnth. simpl in Hnth. apply Hnth. lia.
Qed.

Lemma outer_loop (predictions : list Z) :
  forall (suf pre : list Z) (a c : nat),
    predictions = pre ++ suf ->
    fold_left
      (fun st i =>
         for_range (i + 1) (List.length predictions)
                   (fun j st' => compareWith predictions i j st') st)
      (seq (List.length pre) (List.length suf)) (a, c)
    = (a + matchingAfter suf, c + pairsAfter suf).
Proof.
  induction suf as [| x t IH]; intros pre a c Heq; simpl.
  - f_equal; lia.
  - unfold for_range at 2.
    assert (Hlen : List.length predictions - (List.length pre + 1) = List.length t).
    { rewrite Heq, length_app. simpl. lia. }
    rewrite Hlen.
    rewrite (inner_loop predictions t (List.length pre)).
    + assert (Hx : nth (List.length pre) predictions 0%Z = x).
      { rewrite Heq. apply nth_middle. }
      rewrite Hx.
      replace (S (List.length pre)) with (List.length (pre ++ [x]))
        by (rewrite length_app; simpl; lia).
      rewrite (IH (pre ++ [x])).
      * f_equal; lia.
      * rewrite Heq, <- app_assoc. reflexivity.
    + intros m Hm. rewrite Heq.
      rewrite app_nth2 by lia.
      replace (List.length pre + 1 + m - List.length pre) with (S m) by lia.
      reflexivity.
Qed.

Lemma countAgreements_counts (predictions : list Z) :
  countAgreements predictions
  = (matchingAfter predictions, pairsAfter predictions).
Proof.
  unfold countAgreements, for_range at 1.
  rewrite Nat.sub_0_r.
  exact (@outer_loop predictions predictions [] 0 0 eq_refl).
Qed.

Lemma matching_pairs_of_head (x : Obs.t) (t : list Obs.t) :
  List.length (filter sameArgmax (map (pair x) t))
  = List.length (filter (Z.eqb (maxIndex x)) (map maxIndex t)).
Proof.
  induction t as [| y t IH]; simpl.
  - reflexivity.
  - unfold sameArgmax at 1; simpl.
    destruct (Z.eqb (maxIndex x) (maxIndex y)); simpl; rewrite IH; reflexivity.
Qed.

Lemma matchingAfter_pairs (obs : list Obs.t) :
  matchingAfter (map maxIndex obs)
  = List.length (filter sameArgmax (unorderedPairs obs)).
Proof.
  induction obs as [| x t IH]; simpl.
  - reflexivity.
  - rewrite filter_app, length_app, matching_pairs_of_head, IH. reflexivity.
Qed.

Lemma pairsAfter_pairs (obs : list Obs.t) :
  pairsAfter (map maxIndex obs) = List.length (unorderedPairs obs).
Proof.
  induction obs as [| x t IH]; simpl.
  - reflexivity.
  - rewrite length_app, !length_map, IH. reflexivity.
Qed.

(** The number of unordered pairs of [n] elements is [n (n - 1) / 2]. *)
Lemma unorderedPairs_count {A} (l : list A) :
  2 * List.length (unorderedPairs l) = List.length l * (List.length l - 1).
Proof.
  induction l as [| x t IH]; simpl.
  - reflexivity.
  - rewrite length_app, length_map. nia.
Qed.

(** [maxIndex] is the argmax: on a vector of finite values that is not
    empty it is the first position that holds the largest value. *)
Lemma fold_max_finite (t : list Q) :
  forall a : Q,
    exists m,
      fold_left max2 (map Fin t) (Fin a) = Fin m /\
      (a <= m)%Q /\
      Forall (fun q => (q <= m)%Q) t /\
      (m = a \/ In m t).
Proof.
  induction t as [| x t IH]; intros a; simpl.
  - exists a. repeat split; [lra | constructor | left; reflexivity].
  - destruct (Qle_bool a x) eqn:Hax; simpl.
    + apply Qle_bool_iff in Hax.
      destruct (IH x) as (m & Hm & Hxm & Hall & Hin).
      exists m. repeat split; [exact Hm | lra | constructor; assumption |].
      right. destruct Hin as [-> | Hin]; [left; reflexivity | right; exact Hin].
    + assert (Hlt : (x < a)%Q).
      { apply Qnot_le_lt. intros Hle. apply Qle_bool_iff in Hle. congruence. }
      destruct (IH a) as (m & Hm & Ham & Hall & Hin).
      exists m. repeat split; [exact Hm | exact Ham | constructor; [lra | exact Hall] |].
      destruct Hin as [-> | Hin]; [left; reflexivity | right; right; exact Hin].
Qed.

Lemma indexOf_num_first (qs : list Q) (m : Q) :
  In m qs ->
  exists i,
    indexOf_num (map Fin qs) (Fin m) = Z.of_nat i /\
    i < List.length qs /\
    (nth i qs 0 == m)%Q /\
    (forall j, j < i -> ~ (nth j qs 0 == m)%Q).
Proof.
  induction qs as [| x t IH]; intros Hin.
  - contradiction.
  - simpl. destruct (Qeq_bool x m) eqn:Hxm.
    + exists 0. apply Qeq_bool_iff in Hxm. simpl.
      repeat split; [lia | exact Hxm | intros j Hj; lia].
    + assert (Hneq : ~ (x == m)%Q).
      { intros Heq. apply Qeq_bool_iff in Heq. congruence. }
      destruct Hin as [-> | Hin]; [exfalso; apply Hneq; reflexivity |].
      destruct (IH Hin) as (i & Hi & Hlt & Hnth & Hfirst).
      exists (S i). rewrite Hi.
      repeat split.
      * destruct (Z.of_nat i) eqn:Hz; lia.
      * simpl. lia.
      * exact Hnth.
      * intros [| j] Hj; simpl; [exact Hneq | apply Hfirst; lia].
Qed.

Lemma maxIndex_is_first_maximum (r : Obs.t) (qs : list Q) :
  Obs.probabilities r = map Fin qs ->
  qs <> [] ->
  exists i,
    maxIndex r = Z.of_nat i /\
    i < List.length qs /\
    (forall j, j < List.length qs -> (nth j qs 0 <= nth i qs 0)%Q) /\
    (forall j, j < i -> (nth j qs 0 < nth i qs 0)%Q).
Proof.
  intros Hr Hne. unfold maxIndex. rewrite Hr.
  destruct qs as [| q t]; [contradiction |].
  destruct (fold_max_finite t q) as (m & Hm & Hqm & Hall & Hin).
  assert (Hmax : max_list (map Fin (q :: t)) = Fin m) by exact Hm.
  rewrite Hmax.
  assert (Hin' : In m (q :: t)) by (destruct Hin as [-> | Hin]; [left | right]; auto).
  assert (Hle : forall j, j < List.length (q :: t) -> (nth j (q :: t) 0 <= m)%Q).
  { intros [| j] Hj; simpl; [exact Hqm |].
    rewrite Forall_forall in Hall. apply Hall. apply nth_In. simpl in Hj. lia. }
  destruct (@indexOf_num_first (q :: t) m Hin') as (i & Hi & Hlt & Hnth & Hfirst).
  exists i. repeat split; [exact Hi | exact Hlt | |].
  - intros j Hj. rewrite Hnth. apply Hle. exact Hj.
  - intros j Hj. rewrite Hnth.
    assert (Hjm : (nth j (q :: t) 0 <= m)%Q) by (apply Hle; lia).
    specialize (Hfirst j Hj).
    apply Qle_lteq in Hjm. destruct Hjm as [Hjm | Hjm]; [exact Hjm | contradiction].
Qed.

(** What [detectEmotion] stores in the [probabilities] of an observation:
    the calibrated vector for the facial and the voice reading, the mapped
    sentiment for text; the raw output of the classifier is not kept. *)
Lemma observation_probabilities (e : Engine) (input : list num) (clk : Clock)
    (o : Obs.t) :
  (processFacialEmotion e input clk = Ok o ->
   exists predict,
     Models.facial (models e) = Some predict /\
     Obs.probabilities o
       = applyCalibratedBias (calibrationData e) (predict input) "facial") /\
  (processVoiceEmotion e input clk = Ok o ->
   exists predict,
     Models.voice (models e) = Some predict /\
     Obs.probabilities o
       = applyCalibratedBias (calibrationData e) (predict input) "voice") /\
  (processTextSentiment e input clk = Ok o ->
   exists predict,
     Models.text (models e) = Some predict /\
     Obs.probabilities o = mapSentimentToEmotion (predict input)).
Proof.
  unfold processFacialEmotion, processVoiceEmotion, processTextSentiment.
  repeat split;
    match goal with
    | |- context [match ?m with Some _ => _ | None => _ end] =>
        destruct m as [predict |]; [| discriminate]
    end;
    intros [= <-]; exists predict; split; reflexivity.
Qed.

(** C5, as the code has it: with fewer than two observations the agreement
    is 1; otherwise it is the number of unordered pairs of observations with
    the same argmax divided by the number of unordered pairs, where the
    argmax is taken of the [probabilities] the observation carries: the
    calibrated vector for the facial and voice readings, the mapped sentiment
    for text, not the raw output of the classifier.  Two observations with
    the same argmax of that vector give 1, two with different ones give 0.
    The argmax of a vector of finite values is the first position that
    holds its greatest value. *)
Theorem agreement_is_matching_pair_ratio :
  forall observations : list Obs.t,
    calculateModalityAgreement observations = agreementSpec observations /\
    (List.length observations < 2 ->
     calculateModalityAgreement observations = one) /\
    (forall a b, maxIndex a = maxIndex b ->
                 calculateModalityAgreement [a; b] = one) /\
    (forall a b, maxIndex a <> maxIndex b ->
                 calculateModalityAgreement [a; b] = zero) /\
    (forall (r : Obs.t) (qs : list Q),
        Obs.probabilities r = map Fin qs -> qs <> [] ->
        exists i,
          maxIndex r = Z.of_nat i /\ i < List.length qs /\
          (forall j, j < List.length qs -> (nth j qs 0 <= nth i qs 0)%Q) /\
          (forall j, j < i -> (nth j qs 0 < nth i qs 0)%Q)) /\
    (forall (e : Engine) (input : list num) (clk : Clock) (o : Obs.t),
        (processFacialEmotion e input clk = Ok o ->
         exists predict,
           Models.facial (models e) = Some predict /\
           Obs.probabilities o
             = applyCalibratedBias (calibrationData e) (predict input) "facial") /\
        (processVoiceEmotion e input clk = Ok o ->
         exists predict,
           Models.voice (models e) = Some predict /\
           Obs.probabilities o
             = applyCalibratedBias (calibrationData e) (predict input) "voice") /\
        (processTextSentiment e input clk = Ok o ->
         exists predict,
           Models.text (models e) = Some predict /\
           Obs.probabilities o = mapSentimentToEmotion (predict input))).
Proof.
  intros observations.
  split; [| split; [| split; [| split; [| split]]]].
  - unfold calculateModalityAgreement, agreementSpec.
    destruct (Nat.ltb (List.length observations) 2) eqn:Hlt; [reflexivity |].
    rewrite countAgreements_counts, matchingAfter_pairs, pairsAfter_pairs.
    apply Nat.ltb_ge in Hlt.
    pose proof (unorderedPairs_count observations) as Hcount.
    assert (Hpos : 0 < List.length (unorderedPairs observations)) by nia.
    apply Nat.ltb_lt in Hpos. rewrite Hpos. reflexivity.
  - intros Hlt. unfold calculateModalityAgreement.
    apply Nat.ltb_lt in Hlt. rewrite Hlt. reflexivity.
  - intros a b Hab. unfold calculateModalityAgreement, countAgreements; simpl.
    rewrite Hab, Z.eqb_refl. reflexivity.
  - intros a b Hab. unfold calculateModalityAgreement, countAgreements; simpl.
    apply Z.eqb_neq in Hab. rewrite Hab. reflexivity.
  - intros r qs Hr Hne. exact (maxIndex_is_first_maximum r Hr Hne).
  - exact observation_probabilities.
Qed.

(** ** Wellness and trends *)

Lemma primaryLabel_some (d : Res.t) (top : Ranked) :
  Res.primaryEmotion d = Some top -> primaryLabel d = Ok (emotion top).
Proof. intros Hd. unfold primaryLabel. rewrite Hd. reflexivity. Qed.

Lemma positive_flags (l : list Res.t) :
  wellFormedHistory l ->
  mapM (fun d => label <- primaryLabel d ;; Ok (includes positiveEmotions label)) l
  = Ok (map isPositiveResult l).
Proof.
  induction 1 as [| d l Hd _ IH]; simpl.
  - reflexivity.
  - rewrite IH. unfold primaryLabel, isPositiveResult.
    destruct (Res.primaryEmotion d) as [top |]; [reflexivity | contradiction].
Qed.

Lemma count_true_flags {A} (f : A -> bool) (l : list A) :
  List.length (filter (fun b : bool => b) (map f l)) = List.length (filter f l).
Proof.
  induction l as [| x l IH]; simpl.
  - reflexivity.
  - destruct (f x); simpl; rewrite IH; reflexivity.
Qed.

Lemma recentPositiveCount_spec (history : list Res.t) :
  wellFormedHistory (slice_last 5 history) ->
  recentPositiveCount history = Ok (positiveCountInLast5 history).
Proof.
  intros Hwf. unfold recentPositiveCount, positiveCountInLast5.
  rewrite (positive_flags Hwf). simpl. rewrite count_true_flags. reflexivity.
Qed.

Lemma wellnessLevel_cases (s : num) :
  (wellnessLevel s = "high" <-> (s >? d0_7)%num = true) /\
  (wellnessLevel s = "medium" <->
     (s >? d0_4)%num = true /\ (s >? d0_7)%num = false) /\
  (wellnessLevel s = "low" <->
     (s >? d0_4)%num = false /\ (s >? d0_7)%num = false).
Proof.
  unfold wellnessLevel.
  destruct (s >? d0_7)%num, (s >? d0_4)%num;
    repeat split; intros; try discriminate; try reflexivity;
    match goal with
    | H : _ /\ _ |- _ => destruct H; discriminate
    end.
Qed.

Lemma wellnessScoreOf_value (result : Res.t) (history : list Res.t)
    (top : Ranked) :
  Res.primaryEmotion result = Some top ->
  wellFormedHistory (slice_last 5 history) ->
  wellnessScoreOf result history =
    Ok match history with
       | [] => (wellnessBase result * Conf.overall (Res.confidence result))%num
       | _ :: _ =>
           blendedScore (wellnessBase result)
                        (Conf.overall (Res.confidence result))
                        (positiveCountInLast5 history)
       end.
Proof.
  intros Htop Hwf. unfold wellnessScoreOf.
  rewrite (primaryLabel_some result Htop). cbn [bind].
  unfold wellnessBase, isPositiveResult. rewrite Htop.
  destruct history as [| d rest].
  - reflexivity.
  - rewrite (recentPositiveCount_spec _ Hwf). reflexivity.
Qed.

(** [assessWellness] is the computation of the score followed by the
    construction of the returned object, which calls the undefined
    [this.identifyWellnessFactors]. *)
Lemma assessWellness_unfold (result : Res.t) (history : list Res.t) :
  assessWellness result history =
    (wellnessScore <- wellnessScoreOf result history ;;
     Throw (TypeError "this.identifyWellnessFactors is not a function")).
Proof.
  unfold assessWellness, wellnessScoreOf.
  destruct (primaryLabel result) as [label | x]; cbn [bind]; [| reflexivity].
  destruct (Nat.ltb 0 (List.length history)); [| reflexivity].
  destruct (recentPositiveCount history) as [k | x]; reflexivity.
Qed.

(** C8, as the code has it: the score [assessWellness] computes (its local
    [wellnessScore] on reaching the [return] statement) is
    [(base * overallConfidence + positiveCountInLast5 / 5) / 2] for a history
    that is not empty, and [base * overallConfidence], not blended and not
    halved, for an empty history.  [base] is 0.7 for a primary label among
    happy, excited, content and calm, and 0.3 otherwise.  The level derived
    from the score is high exactly when the score exceeds 0.7, medium exactly
    when it exceeds 0.4 but not 0.7, and low otherwise. *)
Theorem wellness_score_and_level :
  forall (result : Res.t) (history : list Res.t) (top : Ranked),
    Res.primaryEmotion result = Some top ->
    wellFormedHistory (slice_last 5 history) ->
    exists wellnessScore,
      wellnessScoreOf result history = Ok wellnessScore /\
      wellnessScore =
        match history with
        | [] => (wellnessBase result * Conf.overall (Res.confidence result))%num
        | _ :: _ =>
            blendedScore (wellnessBase result)
                         (Conf.overall (Res.confidence result))
                         (positiveCountInLast5 history)
        end /\
      wellnessBase result =
        (if includes positiveEmotions (emotion top) then d0_7 else d0_3) /\
      (wellnessLevel wellnessScore = "high" <->
         (wellnessScore >? d0_7)%num = true) /\
      (wellnessLevel wellnessScore = "medium" <->
         (wellnessScore >? d0_4)%num = true /\
         (wellnessScore >? d0_7)%num = false) /\
      (wellnessLevel wellnessScore = "low" <->
         (wellnessScore >? d0_4)%num = false /\
         (wellnessScore >? d0_7)%num = false).
Proof.
  intros result history top Htop Hwf.
  eexists. split; [exact (wellnessScoreOf_value result history Htop Hwf) |].
  split; [reflexivity |]. split.
  - unfold wellnessBase, isPositiveResult. rewrite Htop. reflexivity.
  - apply wellnessLevel_cases.
Qed.

Section InsightProperties.

Variable Math_sqrt : num -> num.

Lemma analyzeTrends_short (history : list Res.t) :
  List.length history < 2 -> analyzeTrends Math_sqrt history = Ok None.
Proof.
  intros Hlt. unfold analyzeTrends.
  apply Nat.ltb_lt in Hlt. rewrite Hlt. reflexivity.
Qed.

(** C9, as the code has it: on an empty history (as on any history of
    fewer than two results) [analyzeTrends] returns [null]; no error is
    thrown or returned, and no most frequent emotion, diversity or
    stability is computed.  The wellness score is still computed from the
    current result alone, as [base * overallConfidence]. *)
Theorem empty_history_gives_null_trends :
  forall (result : Res.t) (top : Ranked),
    Res.primaryEmotion result = Some top ->
    analyzeTrends Math_sqrt [] = Ok None /\
    (forall history,
        List.length history < 2 -> analyzeTrends Math_sqrt history = Ok None) /\
    wellnessScoreOf result [] =
      Ok (wellnessBase result * Conf.overall (Res.confidence result))%num.
Proof.
  intros result top Htop.
  split; [reflexivity |]. split; [exact analyzeTrends_short |].
  apply (wellnessScoreOf_value result [] Htop). constructor.
Qed.

End InsightProperties.

(** * Concrete runs *)

Lemma neutralProfile_valid : validProfile neutralProfile.
Proof. unfold validProfile; simpl. repeat split; lra. Qed.

(** Without observations and with a loaded fusion model both entry points
    return a result. *)
Lemma no_observation_returns_result :
  (exists r, fuseEmotions sampleEngine [] emptyContext sampleClock = Ok r) /\
  (forall x, fuseEmotions sampleEngine [] emptyContext sampleClock <> Throw x) /\
  (exists e' r,
      detectEmotion noInputs emptyContext sampleClock sampleEngine = (e', Ok r)).
Proof.
  split; [| split].
  - eexists. reflexivity.
  - intros x. discriminate.
  - vm_compute. eexists. eexists. reflexivity.
Qed.

(** Feedback for the label happy on the default calibration: no bias
    vector other than the facial one is raised at index 0. *)
Lemma feedback_does_not_raise_other_modalities :
  let after :=
    calibrationData
      (fst (updateCalibration (resultWith "happy" d0_9) happyFeedback sampleEngine)) in
  ~ biasRaisedAt "voice" 0 defaultCalibration after /\
  ~ biasRaisedAt "text" 0 defaultCalibration after /\
  ~ biasRaisedAt "biometric" 0 defaultCalibration after.
Proof.
  repeat split; intros (b & b' & Hb & Hb' & Hraised).
  - vm_compute in Hb, Hb'. injection Hb as <-. injection Hb' as <-.
    vm_compute in Hraised. discriminate.
  - discriminate.
  - discriminate.
Qed.

Lemma feedback_raises_facial_bias_only_witness :
  indexOf primary "sad" = Some 1 /\
  Js.get
    (facialBias
       (calibrationData
          (fst (updateCalibration (resultWith "happy" d0_9) sadFeedback sampleEngine))))
    1
  = (Js.get (facialBias defaultCalibration) 1 + d0_1 * d0_1)%num.
Proof.
  split.
  - reflexivity.
  - exact (proj1 (proj2
      (@feedback_raises_facial_bias_only
         (resultWith "happy" d0_9) "sad" 1 sampleEngine eq_refl))).
Defined.

Lemma personality_adjustment_normalises_witness :
  validProfile neutralProfile /\
  (Num.sum (applyPersonalityAdjustment neutralProfile sadVector) =n= one)%num.
Proof.
  split.
  - exact neutralProfile_valid.
  - refine (proj1 (proj2
      (@personality_adjustment_normalises neutralProfile
         (Fin (10 # 100)) (Fin (60 # 100)) (Fin (10 # 100)) (Fin (5 # 100))
         [Fin (5 # 100); Fin (5 # 100); Fin (5 # 100)]
         neutralProfile_valid _ _))).
    + repeat constructor; simpl; lra.
    + simpl. lra.
Defined.

Lemma traits_stay_in_unit_interval_witness :
  validProfile (personalityProfile sampleEngine) /\
  validProfile (personalityProfile (afterUpdates threeCalls sampleEngine)).
Proof.
  split.
  - exact neutralProfile_valid.
  - exact (@traits_stay_in_unit_interval threeCalls sampleEngine
             neutralProfile_valid).
Defined.

Lemma agreement_is_matching_pair_ratio_witness :
  calculateModalityAgreement
    [observation "facial" happyVector; observation "voice" happyVector] = one /\
  calculateModalityAgreement
    [observation "facial" happyVector; observation "voice" sadVector] = zero.
Proof.
  split.
  - refine (proj1 (proj2 (proj2 (agreement_is_matching_pair_ratio [])))
              (observation "facial" happyVector) (observation "voice" happyVector) _).
    reflexivity.
  - refine (proj1 (proj2 (proj2 (proj2 (agreement_is_matching_pair_ratio []))))
              (observation "facial" happyVector) (observation "voice" sadVector) _).
    vm_compute. discriminate.
Defined.

(** Two classifiers that return the same raw vector, so with the same raw
    argmax (position 0): after twenty feedbacks naming sad the calibrated
    facial vector peaks at position 1, the voice vector still at position 0,
    and the agreement of the request is 0, where the agreement of the raw
    vectors is 1. *)
Lemma agreement_follows_calibrated_vectors :
  indexOf_num closeVector (max_list closeVector) = 0%Z /\
  calculateModalityAgreement
    [observation "facial" closeVector; observation "voice" closeVector] = one /\
  (exists f v,
      processFacialEmotion biasedEngine [] sampleClock = Ok f /\
      processVoiceEmotion biasedEngine [] sampleClock = Ok v /\
      maxIndex f = 1%Z /\ maxIndex v = 0%Z /\
      calculateModalityAgreement [f; v] = zero) /\
  (exists e' r,
      detectEmotion imageAndAudio emptyContext sampleClock biasedEngine
        = (e', Ok r) /\
      Conf.agreement (Res.confidence r) = zero).
Proof.
  split; [reflexivity |]. split; [reflexivity |]. split.
  - vm_compute. eexists. eexists.
    split; [reflexivity |]. split; [reflexivity |].
    repeat split; reflexivity.
  - vm_compute. eexists. eexists. split; reflexivity.
Qed.

(** A label outside the primary list: the call completes normally. *)
Lemma unknown_label_does_not_throw :
  indexOf primary "joyful" = None /\
  snd (updateCalibration (resultWith "happy" d0_9) (Some joyfulFeedback) sampleEngine)
  = Ok tt /\
  (forall x,
      snd (updateCalibration (resultWith "happy" d0_9) (Some joyfulFeedback)
             sampleEngine) <> Throw x).
Proof.
  repeat split.
  intros x. discriminate.
Qed.

Lemma unknown_label_is_ignored_witness :
  indexOf primary "joyful" = None /\
  calibrationData
    (fst (updateCalibration (resultWith "happy" d0_9) (Some joyfulFeedback)
            sampleEngine))
  = calibrationData sampleEngine.
Proof.
  split.
  - reflexivity.
  - refine (proj1 (proj2
      (@unknown_label_is_ignored (resultWith "happy" d0_9) joyfulFeedback
         sampleEngine _))).
    intros label Hlabel. injection Hlabel as <-. reflexivity.
Defined.

(** The all-zero vector: the adjuster returns seven NaN and the fusion
    returns a result that carries them. *)
Lemma zero_vector_is_returned_as_nan :
  applyPersonalityAdjustment neutralProfile zeroVector = repeat NaN 7 /\
  exists r,
    fuseEmotions zeroEngine [] emptyContext sampleClock = Ok r /\
    Res.probabilities r = repeat NaN 7.
Proof.
  split.
  - reflexivity.
  - eexists. split; reflexivity.
Qed.

Lemma zero_sum_is_not_rejected_witness :
  Models.fusion (models zeroEngine) = Some (constantModel zeroVector) /\
  exists r,
    fuseEmotions zeroEngine [] emptyContext sampleClock = Ok r /\
    Forall (fun x => is_finite x = false) (Res.probabilities r).
Proof.
  split.
  - reflexivity.
  - destruct (@zero_sum_is_not_rejected zeroEngine [] emptyContext sampleClock
                (constantModel zeroVector) eq_refl)
      as (r & Hr & _ & _ & Hnf).
    + vm_compute. reflexivity.
    + exists r. split; assumption.
Defined.

(** A positive result with confidence 1 and no history: the score
    computed is 0.7 and its level medium, where the blended formula gives
    0.35 and low. *)
Lemma empty_history_score_is_not_blended :
  exists wellnessScore,
    wellnessScoreOf (resultWith "happy" one) [] = Ok wellnessScore /\
    ~ (wellnessScore =n= blendedScore d0_7 one (positiveCountInLast5 []))%num /\
    wellnessLevel wellnessScore = "medium" /\
    wellnessLevel (blendedScore d0_7 one (positiveCountInLast5 [])) = "low".
Proof.
  eexists. split; [reflexivity |]. split; [| split; reflexivity].
  vm_compute. discriminate.
Qed.

Lemma wellness_score_and_level_witness :
  exists wellnessScore,
    wellnessScoreOf (resultWith "happy" d0_9) fiveHappy = Ok wellnessScore /\
    wellnessScore = blendedScore d0_7 d0_9 5 /\
    wellnessLevel wellnessScore = "high".
Proof.
  destruct (@wellness_score_and_level (resultWith "happy" d0_9) fiveHappy _ eq_refl)
    as (w & Hw & Hscore & _ & Hhigh & _).
  - repeat constructor; discriminate.
  - exists w. split; [exact Hw |]. split; [exact Hscore |].
    apply Hhigh. rewrite Hscore. reflexivity.
Defined.

(** On an empty history [analyzeTrends] returns [null], not an error. *)
Lemma empty_history_is_not_an_error :
  analyzeTrends sampleSqrt [] = Ok None /\
  (forall x, analyzeTrends sampleSqrt [] <> Throw x).
Proof.
  split; [reflexivity |].
  intros x. discriminate.
Qed.

Lemma empty_history_gives_null_trends_witness :
  analyzeTrends sampleSqrt [] = Ok None /\
  wellnessScoreOf (resultWith "happy" d0_9) [] = Ok (d0_7 * d0_9)%num.
Proof.
  destruct (@empty_history_gives_null_trends sampleSqrt
              (resultWith "happy" d0_9) _ eq_refl)
    as (Htrends & _ & Hscore).
  split; [exact Htrends | exact Hscore].
Defined.

Lemma update_leaves_other_traits_witness :
  validProfile (personalityProfile sampleEngine) /\
  openness
    (personalityProfile
       (fst (updatePersonalityProfile (resultWith "happy" d0_9) emptyContext
               sampleClock sampleEngine)))
  = openness (personalityProfile sampleEngine).
Proof.
  split.
  - exact neutralProfile_valid.
  - exact (proj1
      (@update_leaves_other_traits (resultWith "happy" d0_9) emptyContext
         sampleClock sampleEngine neutralProfile_valid)).
Defined.

(** ** Scenarios *)

(** A single facial reading dominated by sad, neutral personality: sad
    stays the primary emotion after the adjustment. *)
Example sad_stays_dominant :
  exists top,
    h_primary (analyzeEmotionHierarchy
                 (applyPersonalityAdjustment neutralProfile sadVector)) = Some top /\
    emotion top = Some "sad".
Proof. vm_compute. eexists. split; reflexivity. Qed.

(** Extraversion already at 1 stays at 1 on a happy result. *)
Example extraversion_is_capped :
  extraversion
    (evolveProfile
       {| openness := Fin (1 # 2); conscientiousness := Fin (1 # 2);
          extraversion := one; agreeableness := Fin (1 # 2);
          neuroticism := Fin (1 # 2); lastUpdated := EmptyString |}
       (Some "happy") "2024-01-02T09:30:00.000Z")
  = one.
Proof. reflexivity. Qed.

(** Three observations, two of which agree: one matching pair out of three. *)
Example two_of_three_agree :
  calculateModalityAgreement
    [observation "facial" happyVector; observation "voice" happyVector;
     observation "text" sadVector]
  = Fin (1 # 3).
Proof. reflexivity. Qed.

(** * Further properties *)

(** ** Calibration of a reading *)

Lemma clamp01_range (x : num) : in_unit (clamp01 x) \/ clamp01 x = NaN.
Proof.
  destruct x as [q | | |].
  - left. apply clamp01_unit.
  - left. vm_compute. split; discriminate.
  - left. vm_compute. split; discriminate.
  - right. reflexivity.
Qed.

Lemma mapi_from_length {A B} (f : A -> nat -> B) (a : list A) :
  forall i, List.length (mapi_from f i a) = List.length a.
Proof.
  induction a as [| x t IH]; intros i; simpl.
  - reflexivity.
  - rewrite IH. reflexivity.
Qed.

Lemma mapi_from_Forall {A B} (P : B -> Prop) (f : A -> nat -> B) (a : list A) :
  forall i,
    (forall k x, nth_error a k = Some x -> P (f x (i + k))) ->
    Forall P (mapi_from f i a).
Proof.
  induction a as [| x t IH]; intros i Hall; simpl.
  - constructor.
  - constructor.
    + specialize (Hall 0 x eq_refl). rewrite Nat.add_0_r in Hall. exact Hall.
    + apply IH. intros k y Hk. specialize (Hall (S k) y Hk).
      rewrite Nat.add_succ_r in Hall. exact Hall.
Qed.

Lemma finite_value (x : num) : is_finite x = true -> exists q, x = Fin q.
Proof. destruct x; simpl; try discriminate. eauto. Qed.

Lemma get_finite (b : list num) (k : nat) :
  Forall (fun x => is_finite x = true) b -> k < List.length b ->
  exists q, Js.get b k = Fin q.
Proof.
  intros Hb Hk. apply finite_value.
  rewrite Forall_forall in Hb. apply Hb. unfold Js.get. apply nth_In. exact Hk.
Qed.

(** [applyCalibratedBias] keeps the length of the vector and returns, at
    every position, a value of [0,1] or NaN; with a finite adaptation rate,
    finite probabilities and (when the modality has a bias vector) a finite
    bias vector at least as long as the probabilities, every value lies in
    [0,1]. *)
Theorem calibrated_values_are_clamped :
  forall (c : CalibrationData) (probabilities : list num) (modality : string),
    let out := applyCalibratedBias c probabilities modality in
    List.length out = List.length probabilities /\
    Forall (fun y => in_unit y \/ y = NaN) out /\
    (is_finite (adaptationRate c) = true ->
     Forall (fun x => is_finite x = true) probabilities ->
     (forall b, biasOf c modality = Some b ->
                List.length probabilities <= List.length b /\
                Forall (fun x => is_finite x = true) b) ->
     Forall in_unit out).
Proof.
  intros c probabilities modality out. subst out. unfold applyCalibratedBias, mapi.
  split; [apply mapi_from_length |]. split.
  - apply mapi_from_Forall. intros k x _. apply clamp01_range.
  - intros Hrate Hprobs Hbias.
    destruct (finite_value _ Hrate) as (r & Hr). rewrite Hr.
    apply mapi_from_Forall. intros k x Hk. simpl.
    assert (Hlt : k < List.length probabilities)
      by (apply nth_error_Some; congruence).
    assert (Hx : exists p, x = Fin p).
    { apply finite_value. rewrite Forall_forall in Hprobs.
      apply Hprobs. exact (nth_error_In _ _ Hk). }
    destruct Hx as (p & ->).
    assert (Hb : exists q,
               Js.get match biasOf c modality with
                      | Some b => b
                      | None => repeat zero (List.length probabilities)
                      end k = Fin q).
    { destruct (biasOf c modality) as [b |].
      - destruct (Hbias b eq_refl) as (Hlen & Hfin).
        apply get_finite; [exact Hfin | lia].
      - exists 0%Q. unfold Js.get. apply nth_repeat_lt. exact Hlt. }
    destruct Hb as (q & ->). simpl. apply clamp01_unit.
Qed.

Lemma calibration_without_bias_from (rate : Q) (n : nat) (t : list num) :
  forall i,
    i + List.length t <= n ->
    Forall in_unit t ->
    Forall2 Num.eqv
      (mapi_from
         (fun prob k => clamp01 (prob + Js.get (repeat zero n) k * Fin rate)%num)
         i t)
      t.
Proof.
  induction t as [| x t IH]; intros i Hlen Hunit; simpl.
  - constructor.
  - simpl in Hlen. inversion Hunit as [| ? ? Hx Ht]; subst.
    constructor.
    + unfold Js.get. rewrite nth_repeat_lt by lia.
      destruct x as [p | | |]; simpl in Hx; try contradiction.
      simpl. rewrite clamp01_fixes_unit.
      * simpl. lra.
      * simpl. lra.
    + apply IH; [lia | exact Ht].
Qed.

(** A modality without a bias vector (every modality but facial and voice)
    is calibrated with zeros: on probabilities in [0,1] and with a finite
    adaptation rate the calibrated vector is the input. *)
Theorem calibration_without_bias_is_identity :
  forall (c : CalibrationData) (probabilities : list num) (modality : string),
    biasOf c modality = None ->
    is_finite (adaptationRate c) = true ->
    Forall in_unit probabilities ->
    Forall2 Num.eqv (applyCalibratedBias c probabilities modality) probabilities.
Proof.
  intros c probabilities modality Hnone Hrate Hunit.
  unfold applyCalibratedBias, mapi. rewrite Hnone.
  destruct (finite_value _ Hrate) as (r & ->).
  apply calibration_without_bias_from; [lia | exact Hunit].
Qed.

(** ** Sentiment to emotion *)


(** ** Context encoding and fusion input *)

Lemma indexOf_lt (a : list string) (s : string) (i : nat) :
  indexOf a s = Some i -> i < List.length a.
Proof.
  revert i. induction a as [| x t IH]; intros i; simpl.
  - discriminate.
  - destruct (String.eqb x s).
    + intros [= <-]. lia.
    + destruct (indexOf t s) as [j |]; [| discriminate].
      intros [= <-]. specialize (IH j eq_refl). lia.
Qed.

Lemma get_zeros (n k : nat) : k < n -> Js.get (repeat zero n) k = zero.
Proof. intros Hk. unfold Js.get. apply nth_repeat_lt. exact Hk. Qed.

Lemma encodeContext_unfold (context : Context) (clk : Clock) :
  encodeContext context clk =
    match activity context with
    | Some act =>
        if truthy (Some act) then
          match indexOf activityFactors act with
          | Some activityIndex =>
              Js.set (encodedLocation context clk) (4 + activityIndex) one
          | None => encodedLocation context clk
          end
        else encodedLocation context clk
    | None => encodedLocation context clk
    end.
Proof. reflexivity. Qed.

Lemma encodedLocation_length (context : Context) (clk : Clock) :
  List.length (encodedLocation context clk) = 20.
Proof.
  unfold encodedLocation.
  destruct (location context) as [loc |]; [destruct (truthy (Some loc)) |];
    repeat (rewrite length_set; [| repeat rewrite length_set; simpl; lia]);
    reflexivity.
Qed.

Lemma encodedLocation_tail (context : Context) (clk : Clock) (k : nat) :
  4 <= k -> k < 20 -> Js.get (encodedLocation context clk) k = zero.
Proof.
  intros Hlo Hhi. unfold encodedLocation.
  destruct (location context) as [loc |]; [destruct (truthy (Some loc)) |];
    repeat (rewrite get_set_other by lia); apply get_zeros; exact Hhi.
Qed.

Lemma encodedLocation_slots (context : Context) (clk : Clock) :
  Js.get (encodedLocation context clk) 2 =
    (if Js.includes ["home"] (location context) then one else zero) /\
  Js.get (encodedLocation context clk) 3 =
    (if Js.includes ["work"] (location context) then one else zero).
Proof.
  unfold encodedLocation.
  destruct (location context) as [loc |]; [| split; reflexivity].
  destruct (truthy (Some loc)) eqn:Ht.
  - rewrite get_set_other by lia. rewrite !get_set_same.
    unfold Js.includes. cbn [existsb]. rewrite !orb_false_r.
    split; reflexivity.
  - unfold truthy in Ht. apply negb_false_iff in Ht.
    apply String.eqb_eq in Ht. subst loc. split; reflexivity.
Qed.

Lemma encodeContext_length (context : Context) (clk : Clock) :
  List.length (encodeContext context clk) = 20.
Proof.
  rewrite encodeContext_unfold.
  pose proof (encodedLocation_length context clk) as Hlen.
  destruct (activity context) as [act |]; [destruct (truthy (Some act)) |];
    try exact Hlen.
  destruct (indexOf activityFactors act) as [j |] eqn:Hj; [| exact Hlen].
  apply indexOf_lt in Hj. simpl in Hj. rewrite length_set; lia.
Qed.

(** [encodeContext] always returns 20 values; slots 10 to 19 are never
    written and stay 0, so only six of the slots after the location carry
    information. *)
Theorem context_encoding_shape :
  forall (context : Context) (clk : Clock),
    let encoded := encodeContext context clk in
    List.length encoded = 20 /\
    (forall k, 10 <= k -> k < 20 -> Js.get encoded k = zero) /\
    (forall k, 2 <= k -> k < 10 ->
               Js.get encoded k = zero \/ Js.get encoded k = one).
Proof.
  intros context clk encoded. subst encoded.
  rewrite encodeContext_unfold.
  pose proof (encodedLocation_length context clk) as Hlen.
  pose proof (encodedLocation_slots context clk) as (H2 & H3).
  assert (Hbase : forall k, 2 <= k -> k < 20 ->
            Js.get (encodedLocation context clk) k = zero \/
            Js.get (encodedLocation context clk) k = one).
  { intros k Hlo Hhi.
    destruct (Nat.eq_dec k 2) as [-> | N2].
    { rewrite H2. destruct (Js.includes ["home"] (location context));
      [right | left]; reflexivity. }
    destruct (Nat.eq_dec k 3) as [-> | N3].
    { rewrite H3. destruct (Js.includes ["work"] (location context));
      [right | left]; reflexivity. }
    left. apply encodedLocation_tail; lia. }
  destruct (activity context) as [act |]; [destruct (truthy (Some act)) |].
  - destruct (indexOf activityFactors act) as [j |] eqn:Hj.
    + apply indexOf_lt in Hj. simpl in Hj.
      split; [rewrite length_set; lia |]. split.
      * intros k Hlo Hhi. rewrite get_set_other by lia.
        apply encodedLocation_tail; lia.
      * intros k Hlo Hhi. destruct (Nat.eq_dec k (4 + j)) as [-> | Hne].
        -- right. apply get_set_same.
        -- rewrite get_set_other by exact Hne. apply Hbase; lia.
    + split; [exact Hlen |]. split.
      * intros k Hlo Hhi. apply encodedLocation_tail; lia.
      * intros k Hlo Hhi. apply Hbase; lia.
  - split; [exact Hlen |]. split.
    + intros k Hlo Hhi. apply encodedLocation_tail; lia.
    + intros k Hlo Hhi. apply Hbase; lia.
  - split; [exact Hlen |]. split.
    + intros k Hlo Hhi. apply encodedLocation_tail; lia.
    + intros k Hlo Hhi. apply Hbase; lia.
Qed.

(** The activity is one-hot in slots 4 to 9: slot [4 + k] is 1 exactly when
    the activity of the context is the [k]-th known activity; an unknown or
    absent activity leaves the six slots at 0.  Slots 2 and 3 are 1 exactly
    for the locations home and work; any other location encodes like no
    location. *)
Theorem context_encoding_one_hot :
  forall (context : Context) (clk : Clock) (k : nat),
    k < 6 ->
    let encoded := encodeContext context clk in
    (Js.get encoded (4 + k) = one <->
     exists act, activity context = Some act /\
                 indexOf activityFactors act = Some k) /\
    (Js.get encoded (4 + k) <> one -> Js.get encoded (4 + k) = zero) /\
    (Js.get encoded 2 = one <-> location context = Some "home") /\
    (Js.get encoded 3 = one <-> location context = Some "work").
Proof.
  intros context clk k Hk encoded. subst encoded.
  rewrite encodeContext_unfold.
  pose proof (encodedLocation_slots context clk) as (H2 & H3).
  assert (Hz : forall i, i < 6 -> Js.get (encodedLocation context clk) (4 + i) = zero)
    by (intros i Hi; apply encodedLocation_tail; lia).
  assert (Hhome : Js.get (encodedLocation context clk) 2 = one <->
                  location context = Some "home").
  { rewrite H2. unfold Js.includes.
    destruct (location context) as [loc |]; cbn [existsb].
    - rewrite orb_false_r. destruct (String.eqb_spec loc "home") as [-> | Hne].
      + split; reflexivity.
      + split; [discriminate | intros [= Heq]; contradiction].
    - split; discriminate. }
  assert (Hwork : Js.get (encodedLocation context clk) 3 = one <->
                  location context = Some "work").
  { rewrite H3. unfold Js.includes.
    destruct (location context) as [loc |]; cbn [existsb].
    - rewrite orb_false_r. destruct (String.eqb_spec loc "work") as [-> | Hne].
      + split; reflexivity.
      + split; [discriminate | intros [= Heq]; contradiction].
    - split; discriminate. }
  assert (Hnot : zero <> one) by discriminate.
  assert (Hunset :
    Js.get (encodedLocation context clk) (4 + k) = zero ->
    ~ (exists act, activity context = Some act /\
                   indexOf activityFactors act = Some k) ->
    (zero = one <->
     exists act, activity context = Some act /\
                 indexOf activityFactors act = Some k) /\
    (zero <> one -> zero = zero)).
  { intros _ Hnone. split; [split |].
    - intros Habs. exfalso. exact (Hnot Habs).
    - intros Hsome. contradiction.
    - intros _. reflexivity. }
  destruct (activity context) as [act |] eqn:Hact;
    [destruct (truthy (Some act)) eqn:Ht |].
  - destruct (indexOf activityFactors act) as [j |] eqn:Hj.
    + pose proof (indexOf_lt _ _ Hj) as Hjlt. simpl in Hjlt.
      rewrite (get_set_other _ (i := 4 + j) (j := 2)) by lia.
      rewrite (get_set_other _ (i := 4 + j) (j := 3)) by lia.
      destruct (Nat.eq_dec k j) as [-> | Hne].
      * rewrite get_set_same.
        split; [split |]; [| | split; [| split; assumption]].
        -- intros _. exists act. split; [reflexivity | exact Hj].
        -- intros _. reflexivity.
        -- intros Hc. exfalso. apply Hc. reflexivity.
      * rewrite get_set_other by lia. rewrite (Hz k Hk).
        destruct (Hunset (Hz k Hk)) as (Hiff & Himp).
        { intros (act' & [= <-] & Hk'). congruence. }
        split; [exact Hiff |]. split; [exact Himp |]. split; assumption.
    + rewrite (Hz k Hk).
      destruct (Hunset (Hz k Hk)) as (Hiff & Himp).
      { intros (act' & [= <-] & Hk'). congruence. }
      split; [exact Hiff |]. split; [exact Himp |]. split; assumption.
  - rewrite (Hz k Hk).
    destruct (Hunset (Hz k Hk)) as (Hiff & Himp).
    { intros (act' & [= <-] & Hk').
      unfold truthy in Ht. apply negb_false_iff in Ht.
      apply String.eqb_eq in Ht. subst act. simpl in Hk'. discriminate. }
    split; [exact Hiff |]. split; [exact Himp |]. split; assumption.
  - rewrite (Hz k Hk).
    destruct (Hunset (Hz k Hk)) as (Hiff & Himp).
    { intros (act' & Habs & _). discriminate. }
    split; [exact Hiff |]. split; [exact Himp |]. split; assumption.
Qed.

(** The input of the fusion model has one entry per modality probability,
    20 context values and 5 traits: its width changes with the number of
    modalities of the request, [7 n + 25] for [n] seven-valued readings. *)
Theorem fusion_input_width :
  forall (e : Engine) (modalityResults : list Obs.t) (context : Context)
         (clk : Clock),
    List.length (prepareFusionInput e modalityResults context clk)
    = list_sum (map (fun r => List.length (Obs.probabilities r)) modalityResults)
      + 25 /\
    (Forall (fun r => List.length (Obs.probabilities r) = 7) modalityResults ->
     List.length (prepareFusionInput e modalityResults context clk)
     = 7 * List.length modalityResults + 25).
Proof.
  intros e modalityResults context clk.
  assert (Hlen : List.length (prepareFusionInput e modalityResults context clk)
    = list_sum (map (fun r => List.length (Obs.probabilities r)) modalityResults)
      + 25).
  { unfold prepareFusionInput.
    rewrite !length_app, length_concat, map_map.
    rewrite encodeContext_length. simpl. lia. }
  split; [exact Hlen |].
  intros Hseven. rewrite Hlen. clear Hlen.
  assert (Hs : list_sum (map (fun r => List.length (Obs.probabilities r))
                             modalityResults)
               = 7 * List.length modalityResults).
  { induction Hseven as [| r rs Hr _ IH]; simpl.
    - reflexivity.
    - rewrite Hr, IH. lia. }
  lia.
Qed.

(** ** Ranking of the emotions *)

Lemma insertRanked_perm (x : Ranked) (sorted : list Ranked) :
  Permutation (insertRanked x sorted) (x :: sorted).
Proof.
  induction sorted as [| y t IH]; cbn [insertRanked].
  - apply Permutation_refl.
  - destruct ((probability x - probability y) >? zero)%num.
    + apply Permutation_refl.
    + apply perm_trans with (y :: x :: t).
      * apply perm_skip. exact IH.
      * apply perm_swap.
Qed.

Lemma sortRanked_perm (l : list Ranked) : Permutation (sortRanked l) l.
Proof.
  unfold sortRanked.
  assert (Hacc : forall l acc,
             Permutation (fold_left (fun s x => insertRanked x s) l acc)
                         (acc ++ l)).
  { clear l. induction l as [| x l IH]; intros acc; simpl.
    - rewrite app_nil_r. apply Permutation_refl.
    - apply perm_trans with (insertRanked x acc ++ l); [apply IH |].
      apply perm_trans with ((x :: acc) ++ l).
      + apply Permutation_app_tail. apply insertRanked_perm.
      + simpl. apply Permutation_middle. }
  exact (Hacc l []).
Qed.

Lemma gt_difference (a b : Q) :
  ((Fin a - Fin b) >? zero)%num = true <-> (b < a)%Q.
Proof.
  unfold gtb, sub, zero; simpl.
  destruct (Qle_bool (a + - b) 0) eqn:Hle; simpl.
  - apply Qle_bool_iff in Hle. split; [discriminate | intros; lra].
  - split; [intros _ | reflexivity].
    apply Qnot_le_lt. intros Hba.
    assert (Hle' : (a + - b <= 0)%Q) by lra.
    apply Qle_bool_iff in Hle'. congruence.
Qed.

Lemma insertRanked_head (x : Ranked) (sorted : list Ranked) :
  hd_error (insertRanked x sorted) = stepBest (hd_error sorted) x.
Proof.
  destruct sorted as [| y t]; cbn [insertRanked hd_error stepBest].
  - reflexivity.
  - destruct ((probability x - probability y) >? zero)%num; reflexivity.
Qed.

Lemma insertRanked_sorted (x : Ranked) (sorted : list Ranked) :
  is_finite (probability x) = true ->
  Forall (fun y => is_finite (probability y) = true) sorted ->
  Sorted atLeastAsLikely sorted ->
  Sorted atLeastAsLikely (insertRanked x sorted).
Proof.
  intros Hx Hfin Hsorted.
  induction sorted as [| y t IH]; cbn [insertRanked].
  - repeat constructor.
  - inversion Hfin as [| ? ? Hy Ht]; subst.
    inversion Hsorted as [| ? ? Hst Hhd]; subst.
    destruct (finite_value _ Hx) as (a & Ha).
    destruct (finite_value _ Hy) as (b & Hb).
    destruct ((probability x - probability y) >? zero)%num eqn:Hgt.
    + constructor; [exact Hsorted |]. constructor.
      rewrite Ha, Hb in Hgt. apply gt_difference in Hgt.
      unfold atLeastAsLikely. rewrite Ha, Hb. simpl. repeat split. lra.
    + assert (Hab : (a <= b)%Q).
      { apply Qnot_lt_le. intros Hlt. rewrite Ha, Hb in Hgt.
        apply gt_difference in Hlt. congruence. }
      constructor; [apply IH; assumption |].
      pose proof (insertRanked_head x t) as Hhead.
      destruct (insertRanked x t) as [| z t'] eqn:Hins; [constructor |].
      constructor. cbn [hd_error] in Hhead.
      destruct t as [| w t'']; cbn [hd_error stepBest] in Hhead.
      * injection Hhead as ->.
        unfold atLeastAsLikely. rewrite Ha, Hb. simpl. repeat split. exact Hab.
      * inversion Hhd as [| ? ? Hyw]; subst.
        destruct ((probability x - probability w) >? zero)%num;
          injection Hhead as ->.
        -- unfold atLeastAsLikely. rewrite Ha, Hb. simpl. repeat split. exact Hab.
        -- exact Hyw.
Qed.

Lemma sortRanked_sorted (l : list Ranked) :
  Forall (fun y => is_finite (probability y) = true) l ->
  Sorted atLeastAsLikely (sortRanked l).
Proof.
  unfold sortRanked.
  assert (Hacc : forall l acc,
             Forall (fun y => is_finite (probability y) = true) l ->
             Forall (fun y => is_finite (probability y) = true) acc ->
             Sorted atLeastAsLikely acc ->
             Sorted atLeastAsLikely (fold_left (fun s x => insertRanked x s) l acc)).
  { clear l. induction l as [| x l IH]; intros acc Hl Hacc Hs; simpl.
    - exact Hs.
    - inversion Hl as [| ? ? Hx Hl']; subst. apply IH.
      + exact Hl'.
      + apply (Permutation_Forall (Permutation_sym (insertRanked_perm x acc))).
        constructor; assumption.
      + apply insertRanked_sorted; assumption. }
  intros Hl. apply Hacc; [exact Hl | constructor | constructor].
Qed.

Lemma labelled_entries (v : list num) :
  forall i k,
    nth_error (mapi_from labelled i v) k
    = option_map (fun prob => labelled prob (i + k)) (nth_error v k).
Proof.
  induction v as [| x t IH]; intros i k.
  - destruct k; reflexivity.
  - destruct k as [| k]; simpl.
    + rewrite Nat.add_0_r. reflexivity.
    + rewrite IH, Nat.add_succ_r. reflexivity.
Qed.

Lemma analyzeEmotionHierarchy_all (v : list num) :
  h_all (analyzeEmotionHierarchy v) = sortRanked (mapi labelled v) /\
  h_primary (analyzeEmotionHierarchy v) = hd_error (sortRanked (mapi labelled v)) /\
  h_secondary (analyzeEmotionHierarchy v) = slice 1 3 (sortRanked (mapi labelled v)).
Proof. repeat split; reflexivity. Qed.

Lemma ranking_perm (v : list num) :
  Permutation (h_all (analyzeEmotionHierarchy v)) (mapi labelled v) /\
  List.length (h_all (analyzeEmotionHierarchy v)) = List.length v /\
  h_primary (analyzeEmotionHierarchy v) = hd_error (h_all (analyzeEmotionHierarchy v)) /\
  h_secondary (analyzeEmotionHierarchy v)
    = firstn 2 (tl (h_all (analyzeEmotionHierarchy v))).
Proof.
  destruct (analyzeEmotionHierarchy_all v) as (-> & -> & ->).
  pose proof (sortRanked_perm (mapi labelled v)) as Hperm.
  split; [exact Hperm |]. split; [| split; [reflexivity |]].
  - rewrite (Permutation_length Hperm). apply mapi_from_length.
  - unfold slice. destruct (sortRanked (mapi labelled v)); reflexivity.
Qed.

(** [analyzeEmotionHierarchy] ranks every position of the vector exactly
    once, each under the label of its position (none past the seventh); the
    ranking is in non-increasing order of probability when the values are
    finite, and the secondary emotions are the two entries after the first
    (fewer when the vector is shorter than three). *)
Theorem ranking_is_sorted_permutation :
  forall v : list num,
    let ranking := h_all (analyzeEmotionHierarchy v) in
    Permutation ranking (mapi labelled v) /\
    List.length ranking = List.length v /\
    (Forall (fun x => is_finite x = true) v -> Sorted atLeastAsLikely ranking) /\
    h_primary (analyzeEmotionHierarchy v) = hd_error ranking /\
    h_secondary (analyzeEmotionHierarchy v) = firstn 2 (tl ranking) /\
    List.length (h_secondary (analyzeEmotionHierarchy v))
      = Nat.min 2 (List.length v - 1).
Proof.
  intros v ranking. subst ranking.
  destruct (ranking_perm v) as (Hperm & Hlen & Hprim & Hsec).
  split; [exact Hperm |]. split; [exact Hlen |]. split; [| split; [exact Hprim |]].
  - intros Hfin.
    destruct (analyzeEmotionHierarchy_all v) as (-> & _ & _).
    apply sortRanked_sorted.
    apply mapi_from_Forall. intros k x Hk. simpl.
    rewrite Forall_forall in Hfin. apply Hfin. exact (nth_error_In _ _ Hk).
  - split; [exact Hsec |]. rewrite Hsec, length_firstn.
    destruct (h_all (analyzeEmotionHierarchy v)) as [| y t];
      cbn [tl List.length] in *; lia.
Qed.

Lemma sortRanked_head (l : list Ranked) :
  hd_error (sortRanked l) = fold_left stepBest l None.
Proof.
  unfold sortRanked.
  assert (Hacc : forall l acc,
             hd_error (fold_left (fun s x => insertRanked x s) l acc)
             = fold_left stepBest l (hd_error acc)).
  { clear l. induction l as [| x l IH]; intros acc; simpl.
    - reflexivity.
    - rewrite IH, insertRanked_head. reflexivity. }
  exact (Hacc l []).
Qed.

(** The leader of a list of finite entries is its first entry of greatest
    probability. *)
Lemma best_is_first_maximum (l : list Ranked) :
  Forall (fun y => is_finite (probability y) = true) l ->
  l <> [] ->
  exists k x,
    fold_left stepBest l None = Some x /\
    nth_error l k = Some x /\
    (forall j y, nth_error l j = Some y ->
                 (qval (probability y) <= qval (probability x))%Q) /\
    (forall j y, j < k -> nth_error l j = Some y ->
                 (qval (probability y) < qval (probability x))%Q).
Proof.
  induction l as [| x l IH] using rev_ind; intros Hfin Hne.
  - contradiction.
  - clear Hne. rewrite fold_left_app. cbn [fold_left].
    apply Forall_app in Hfin. destruct Hfin as (Hl & Hx).
    inversion Hx as [| ? ? Hxf _]; subst.
    destruct l as [| y0 l0] eqn:Hl0.
    + exists 0, x. cbn. repeat split.
      * intros [| j] y Hj; cbn in Hj; [injection Hj as <-; lra |].
        destruct j; discriminate.
      * intros j y Hj. lia.
    + rewrite <- Hl0 in *. assert (Hne : l <> []) by (subst l; discriminate).
      clear Hl0 y0 l0.
      destruct (IH Hl Hne) as (k & b & Hbest & Hk & Hmax & Hfirst).
      rewrite Hbest. cbn [stepBest].
      assert (Hbf : is_finite (probability b) = true).
      { rewrite Forall_forall in Hl. apply Hl. exact (nth_error_In _ _ Hk). }
      destruct (finite_value _ Hxf) as (qx & Hqx).
      destruct (finite_value _ Hbf) as (qb & Hqb).
      assert (Hklt : k < List.length l) by (apply nth_error_Some; congruence).
      destruct ((probability x - probability b) >? zero)%num eqn:Hgt.
      * rewrite Hqx, Hqb in Hgt. apply gt_difference in Hgt.
        exists (List.length l), x. split; [reflexivity |].
        split; [rewrite nth_error_app2 by lia; rewrite Nat.sub_diag; reflexivity |].
        split.
        -- intros j y Hj.
           destruct (Nat.lt_ge_cases j (List.length l)) as [Hjl | Hjl].
           ++ rewrite nth_error_app1 in Hj by exact Hjl.
              specialize (Hmax j y Hj). rewrite Hqx. rewrite Hqb in Hmax.
              simpl in *. lra.
           ++ rewrite nth_error_app2 in Hj by exact Hjl.
              destruct (j - List.length l) as [| d]; cbn in Hj;
                [injection Hj as <-; lra | destruct d; discriminate].
        -- intros j y Hjl Hj. rewrite nth_error_app1 in Hj by exact Hjl.
           specialize (Hmax j y Hj). rewrite Hqx. rewrite Hqb in Hmax.
           simpl in *. lra.
      * assert (Hle : (qx <= qb)%Q).
        { apply Qnot_lt_le. intros Hlt. rewrite Hqx, Hqb in Hgt.
          apply gt_difference in Hlt. congruence. }
        exists k, b. split; [reflexivity |].
        split; [rewrite nth_error_app1 by exact Hklt; exact Hk |].
        split.
        -- intros j y Hj.
           destruct (Nat.lt_ge_cases j (List.length l)) as [Hjl | Hjl].
           ++ rewrite nth_error_app1 in Hj by exact Hjl. exact (Hmax j y Hj).
           ++ rewrite nth_error_app2 in Hj by exact Hjl.
              destruct (j - List.length l) as [| d]; cbn in Hj;
                [injection Hj as <- | destruct d; discriminate].
              rewrite Hqx, Hqb. simpl. exact Hle.
        -- intros j y Hjk Hj. rewrite nth_error_app1 in Hj by lia.
           exact (Hfirst j y Hjk Hj).
Qed.

(** The primary emotion is the argmax of the vector: on finite values it
    is the entry at the first position that holds the greatest value, the
    position [indexOf(Math.max(...))] finds, under the label of that
    position; its probability is the fusion confidence [Math.max(...)]. *)
Theorem primary_is_first_argmax :
  forall qs : list Q,
    qs <> [] ->
    exists i,
      indexOf_num (map Fin qs) (max_list (map Fin qs)) = Z.of_nat i /\
      i < List.length qs /\
      h_primary (analyzeEmotionHierarchy (map Fin qs))
        = Some (labelled (Fin (nth i qs 0%Q)) i) /\
      (max_list (map Fin qs) =n= Fin (nth i qs 0%Q))%num.
Proof.
  intros qs Hne.
  destruct qs as [| q t] eqn:Hqs; [contradiction |]. rewrite <- Hqs in *.
  (* the position found by indexOf(Math.max(...)) *)
  assert (Harg : exists i m,
             max_list (map Fin qs) = Fin m /\
             indexOf_num (map Fin qs) (Fin m) = Z.of_nat i /\
             i < List.length qs /\ (nth i qs 0 == m)%Q /\
             (forall j, j < List.length qs -> (nth j qs 0 <= m)%Q) /\
             (forall j, j < i -> (nth j qs 0 < m)%Q)).
  { destruct (fold_max_finite t q) as (m & Hm & Hqm & Hall & Hin).
    assert (Hmax : max_list (map Fin qs) = Fin m) by (rewrite Hqs; exact Hm).
    assert (Hin' : In m qs).
    { rewrite Hqs. destruct Hin as [-> | Hin]; [left | right]; auto. }
    assert (Hle : forall j, j < List.length qs -> (nth j qs 0 <= m)%Q).
    { rewrite Hqs. intros [| j] Hj; simpl; [exact Hqm |].
      rewrite Forall_forall in Hall. apply Hall. apply nth_In. simpl in Hj. lia. }
    destruct (@indexOf_num_first qs m Hin') as (i & Hi & Hlt & Hnth & Hfirst).
    exists i, m. repeat split; try assumption.
    intros j Hj.
    assert (Hjm : (nth j qs 0 <= m)%Q) by (apply Hle; lia).
    specialize (Hfirst j Hj).
    apply Qle_lteq in Hjm. destruct Hjm as [Hjm | Hjm]; [exact Hjm | contradiction]. }
  destruct Harg as (i & m & Hmax & Hidx & Hilt & Hnth & Hall & Hfirst).
  (* the leader of the ranking *)
  set (l := mapi labelled (map Fin qs)).
  assert (Hentry : forall k, nth_error l k
                     = option_map (fun x => labelled (Fin x) k) (nth_error qs k)).
  { intros k. unfold l, mapi. rewrite labelled_entries, nth_error_map.
    destruct (nth_error qs k); reflexivity. }
  assert (Hfin : Forall (fun y => is_finite (probability y) = true) l).
  { unfold l, mapi. apply mapi_from_Forall. intros k x Hk.
    rewrite nth_error_map in Hk. destruct (nth_error qs k); [| discriminate].
    injection Hk as <-. reflexivity. }
  assert (Hlne : l <> []).
  { unfold l, mapi. rewrite Hqs. discriminate. }
  destruct (best_is_first_maximum Hfin Hlne) as (k & b & Hbest & Hk & Hbmax & Hbfirst).
  assert (Hnthq : forall j, j < List.length qs ->
                            nth_error qs j = Some (nth j qs 0%Q)).
  { intros j Hj. apply nth_error_nth'. exact Hj. }
  assert (Hklt : k < List.length qs).
  { rewrite Hentry in Hk. destruct (nth_error qs k) eqn:Hq; [| discriminate].
    apply nth_error_Some. congruence. }
  assert (Hb : b = labelled (Fin (nth k qs 0%Q)) k).
  { rewrite Hentry, (Hnthq k Hklt) in Hk. injection Hk as <-. reflexivity. }
  assert (Hki : k = i).
  { destruct (Nat.lt_trichotomy k i) as [Hlt | [Heq | Hgt]]; [| exact Heq |].
    - specialize (Hfirst k Hlt).
      assert (Hik : (nth i qs 0 <= nth k qs 0)%Q).
      { assert (He : nth_error l i = Some (labelled (Fin (nth i qs 0%Q)) i))
          by (rewrite Hentry, (Hnthq i Hilt); reflexivity).
        specialize (Hbmax i _ He). rewrite Hb in Hbmax. exact Hbmax. }
      lra.
    - assert (He : nth_error l i = Some (labelled (Fin (nth i qs 0%Q)) i))
        by (rewrite Hentry, (Hnthq i Hilt); reflexivity).
      specialize (Hbfirst i _ Hgt He). rewrite Hb in Hbfirst. simpl in Hbfirst.
      specialize (Hall k Hklt). lra. }
  subst k. exists i.
  split; [rewrite Hmax; exact Hidx |]. split; [exact Hilt |]. split.
  - destruct (analyzeEmotionHierarchy_all (map Fin qs)) as (_ & -> & _).
    fold l. rewrite sortRanked_head, Hbest, Hb. reflexivity.
  - rewrite Hmax. simpl. symmetry. exact Hnth.
Qed.

(** ** Results of the fusion *)

Lemma length_set_max (a : list num) (i : nat) (v : num) :
  List.length (Js.set a i v) = Nat.max (List.length a) (S i).
Proof.
  revert a. induction i as [| i IH]; intros [| x t]; simpl.
  - reflexivity.
  - lia.
  - rewrite IH. simpl. lia.
  - rewrite IH. lia.
Qed.

Lemma adjustByTraits_length (p : PersonalityProfile) (v : list num) :
  List.length (adjustByTraits p v) = Nat.max 4 (List.length v).
Proof.
  unfold adjustByTraits, scaleAt. rewrite !length_set_max. lia.
Qed.

Lemma labelled_known (prob : num) (index : nat) (label : string) :
  emotion (labelled prob index) = Some label -> In label primary.
Proof. unfold labelled; simpl. apply nth_error_In. Qed.

Lemma positive_primary_label (label : string) :
  In label primary ->
  includes positiveEmotions (Some label) = true \/
  includes ["happy"; "excited"] (Some label) = true ->
  label = "happy".
Proof.
  intros Hin Hpos. simpl in Hin.
  repeat (destruct Hin as [<- | Hin]; [try reflexivity |]);
    try contradiction;
    destruct Hpos as [Hpos | Hpos]; vm_compute in Hpos; discriminate.
Qed.

(** Whatever the fusion model answers, a result of [fuseEmotions] carries
    a probability vector of at least four entries (the adjustment writes
    positions 0 to 3 and so pads a shorter answer), a primary emotion and
    two secondary emotions.  The primary label is undefined or one of the
    seven primary labels: of the labels the engine treats as positive
    (happy, excited, content, calm) only happy can come out of a fusion. *)
Theorem fused_result_shape :
  forall (e : Engine) (modalityResults : list Obs.t) (context : Context)
         (clk : Clock) (r : Res.t),
    fuseEmotions e modalityResults context clk = Ok r ->
    4 <= List.length (Res.probabilities r) /\
    List.length (Res.secondaryEmotions r) = 2 /\
    exists top,
      Res.primaryEmotion r = Some top /\
      (forall label, emotion top = Some label -> In label primary) /\
      (isPositiveResult r = true -> emotion top = Some "happy") /\
      (includes ["happy"; "excited"] (emotion top) = true ->
       emotion top = Some "happy").
Proof.
  intros e modalityResults context clk r Hr.
  unfold fuseEmotions in Hr.
  destruct (Models.fusion (models e)) as [predict |]; [| discriminate].
  injection Hr as <-. cbn [Res.probabilities Res.secondaryEmotions Res.primaryEmotion].
  set (v := applyPersonalityAdjustment (personalityProfile e) _).
  assert (Hlen : 4 <= List.length v).
  { unfold v, applyPersonalityAdjustment.
    rewrite length_map, adjustByTraits_length. lia. }
  destruct (ranking_perm v) as (Hperm & Hrlen & Hprim & Hsec0).
  assert (Hsec : List.length (h_secondary (analyzeEmotionHierarchy v))
                 = Nat.min 2 (List.length v - 1)).
  { rewrite Hsec0, length_firstn.
    destruct (h_all (analyzeEmotionHierarchy v)) as [| y t];
      cbn [tl List.length] in *; lia. }
  change (4 <= List.length v /\
          List.length (h_secondary (analyzeEmotionHierarchy v)) = 2 /\
          exists top,
            h_primary (analyzeEmotionHierarchy v) = Some top /\
            (forall label, emotion top = Some label -> In label primary) /\
            (match h_primary (analyzeEmotionHierarchy v) with
             | Some t => includes positiveEmotions (emotion t)
             | None => false
             end = true -> emotion top = Some "happy") /\
            (includes ["happy"; "excited"] (emotion top) = true ->
             emotion top = Some "happy")).
  split; [exact Hlen |]. split; [rewrite Hsec; lia |].
  rewrite Hprim.
  destruct (h_all (analyzeEmotionHierarchy v)) as [| top rest] eqn:Hall;
    [simpl in Hrlen; lia |].
  exists top. split; [reflexivity |].
  assert (Hknown : forall label, emotion top = Some label -> In label primary).
  { assert (Hin : In top (mapi labelled v)).
    { apply (Permutation_in _ Hperm). left. reflexivity. }
    unfold mapi in Hin. apply In_nth_error in Hin. destruct Hin as (k & Hk).
    rewrite labelled_entries in Hk.
    destruct (nth_error v k) as [prob |]; [| discriminate].
    injection Hk as <-. apply labelled_known. }
  split; [exact Hknown |]. cbn [hd_error].
  destruct (emotion top) as [label |] eqn:Hlabel.
  - split; intros Hpos; f_equal; apply positive_primary_label; auto.
  - split; discriminate.
Qed.

(** ** Confidence *)

Lemma matchingAfter_le (l : list Z) : matchingAfter l <= pairsAfter l.
Proof.
  induction l as [| x t IH]; simpl.
  - lia.
  - pose proof (filter_length_le (Z.eqb x) t). lia.
Qed.

Lemma ratio_in_unit (a c : nat) :
  a <= c -> 0 < c -> in_unit (of_nat a / of_nat c)%num.
Proof.
  intros Hac Hc. unfold of_nat, div.
  assert (Hcq : (0 < inject_Z (Z.of_nat c))%Q).
  { unfold Qlt; simpl. lia. }
  assert (Haq : (0 <= inject_Z (Z.of_nat a))%Q).
  { unfold Qle; simpl. lia. }
  assert (Hacq : (inject_Z (Z.of_nat a) <= inject_Z (Z.of_nat c))%Q).
  { unfold Qle; simpl. lia. }
  destruct (Qeq_bool (inject_Z (Z.of_nat c)) 0) eqn:E.
  - apply Qeq_bool_eq in E. lra.
  - cbn [in_unit]. split.
    + apply Qle_shift_div_l; lra.
    + apply Qle_shift_div_r; lra.
Qed.

Lemma agreement_unit (modalityResults : list Obs.t) :
  in_unit (calculateModalityAgreement modalityResults).
Proof.
  revert modalityResults.
  intros modalityResults. unfold calculateModalityAgreement.
  destruct (Nat.ltb (List.length modalityResults) 2); [simpl; lra |].
  rewrite countAgreements_counts.
  pose proof (matchingAfter_le (map maxIndex modalityResults)) as Hle.
  destruct (Nat.ltb 0 (pairsAfter (map maxIndex modalityResults))) eqn:Hpos.
  - apply Nat.ltb_lt in Hpos. apply ratio_in_unit; assumption.
  - simpl. lra.
Qed.

Lemma unit_values (l : list num) :
  Forall in_unit l ->
  exists qs, l = map Fin qs /\ Forall (fun q => (0 <= q /\ q <= 1)%Q) qs.
Proof.
  induction 1 as [| x l Hx _ (qs & -> & Hqs)].
  - exists []. split; [reflexivity | constructor].
  - destruct x as [q | | |]; simpl in Hx; try contradiction.
    exists (q :: qs). split; [reflexivity | constructor; assumption].
Qed.

Lemma qsum_unit_bounds (qs : list Q) :
  Forall (fun q => (0 <= q /\ q <= 1)%Q) qs ->
  (0 <= qsum qs /\ qsum qs <= inject_Z (Z.of_nat (List.length qs)))%Q.
Proof.
  induction 1 as [| q qs (Hlo & Hhi) _ (IHlo & IHhi)].
  - unfold qsum; simpl. change (inject_Z 0) with 0%Q. split; lra.
  - rewrite qsum_cons. cbn [List.length]. rewrite Nat2Z.inj_succ.
    unfold Z.succ. rewrite inject_Z_plus. change (inject_Z 1) with 1%Q.
    split; lra.
Qed.

Lemma mean_in_unit (l : list num) :
  l <> [] -> Forall in_unit l ->
  in_unit (Num.sum l / of_nat (List.length l))%num.
Proof.
  intros Hne Hunit.
  destruct (unit_values Hunit) as (qs & -> & Hqs).
  rewrite sum_finite, length_map. unfold of_nat, div.
  destruct (qsum_unit_bounds Hqs) as (Hlo & Hhi).
  assert (Hn : (0 < inject_Z (Z.of_nat (List.length qs)))%Q).
  { destruct qs; [contradiction |]. unfold Qlt; simpl. lia. }
  destruct (Qeq_bool (inject_Z (Z.of_nat (List.length qs))) 0) eqn:E.
  - apply Qeq_bool_eq in E. lra.
  - cbn [in_unit]. split.
    + apply Qle_shift_div_l; lra.
    + apply Qle_shift_div_r; lra.
Qed.

Lemma max_in_unit (l : list num) :
  l <> [] -> Forall in_unit l -> in_unit (max_list l).
Proof.
  intros Hne Hunit.
  destruct (unit_values Hunit) as (qs & -> & Hqs).
  destruct qs as [| q t]; [contradiction |].
  destruct (fold_max_finite t q) as (m & Hm & _ & _ & Hin).
  assert (Hmax : max_list (map Fin (q :: t)) = Fin m) by exact Hm.
  rewrite Hmax. rewrite Forall_forall in Hqs. cbn [in_unit].
  apply Hqs. destruct Hin as [-> | Hin]; [left | right]; auto.
Qed.

(** The agreement score is always a number of [0,1], whatever the
    observations hold (NaN, empty vectors, any number of modalities).  With
    at least one observation, observation confidences in [0,1] and a final
    vector of values in [0,1] that is not empty, the other three confidence
    figures (overall, modality, fusion) lie in [0,1] as well. *)
Theorem confidence_in_unit_interval :
  forall (modalityResults : list Obs.t) (finalProbs : list num),
    let c := calculateFusionConfidence modalityResults finalProbs in
    in_unit (calculateModalityAgreement modalityResults) /\
    Conf.agreement c = calculateModalityAgreement modalityResults /\
    (modalityResults <> [] ->
     Forall (fun r => in_unit (Obs.confidence r)) modalityResults ->
     finalProbs <> [] ->
     Forall in_unit finalProbs ->
     in_unit (Conf.overall c) /\ in_unit (Conf.modality c) /\
     in_unit (Conf.fusion c)).
Proof.
  intros modalityResults finalProbs c. subst c.
  pose proof (agreement_unit modalityResults) as Ha.
  split; [exact Ha |]. split; [reflexivity |].
  intros Hne Hconf Hpne Hprobs.
  unfold calculateFusionConfidence.
  cbn [Conf.overall Conf.modality Conf.fusion].
  assert (Hm : in_unit (Num.sum (map Obs.confidence modalityResults)
                        / of_nat (List.length (map Obs.confidence modalityResults)))%num).
  { apply mean_in_unit.
    - destruct modalityResults; [contradiction | discriminate].
    - apply Forall_map. exact Hconf. }
  pose proof (max_in_unit Hpne Hprobs) as Hf.
  split; [| split; [exact Hm | exact Hf]].
  destruct (Num.sum (map Obs.confidence modalityResults)
            / of_nat (List.length (map Obs.confidence modalityResults)))%num
    as [m | | |]; try contradiction.
  destruct (max_list finalProbs) as [f | | |]; try contradiction.
  destruct (calculateModalityAgreement modalityResults) as [a | | |];
    try contradiction.
  simpl in *. split.
  - apply Qle_shift_div_l; lra.
  - apply Qle_shift_div_r; lra.
Qed.

(** ** Modality contributions *)





(** ** Repeated feedback and repeated evolution *)






(** ** The detection pipeline *)










(** ** Insight methods and the methods the class does not define *)

Lemma primaryLabel_throw (d : Res.t) (x : exn) :
  primaryLabel d = Throw x -> exists msg, x = TypeError msg.
Proof.
  unfold primaryLabel. destruct (Res.primaryEmotion d); [discriminate |].
  intros [= <-]. eexists. reflexivity.
Qed.

Lemma positive_flags_throw (l : list Res.t) (x : exn) :
  mapM (fun d => label <- primaryLabel d ;; Ok (includes positiveEmotions label)) l
  = Throw x ->
  exists msg, x = TypeError msg.
Proof.
  induction l as [| d l IH]; cbn [mapM]; [discriminate |].
  destruct (primaryLabel d) as [label | y] eqn:Hd; cbn [bind].
  - destruct (mapM _ l) as [flags | y]; cbn [bind]; [discriminate |].
    intros [= <-]. apply IH. reflexivity.
  - intros [= <-]. exact (primaryLabel_throw d Hd).
Qed.

Lemma countEmotions_throw (l : list Res.t) :
  forall counts x,
    countEmotions l counts = Throw x -> exists msg, x = TypeError msg.
Proof.
  induction l as [| d l IH]; intros counts x; cbn [countEmotions].
  - discriminate.
  - destruct (primaryLabel d) as [label | y] eqn:Hd; cbn [bind].
    + apply IH.
    + intros [= <-]. exact (primaryLabel_throw d Hd).
Qed.

Lemma assessWellness_throws (result : Res.t) (history : list Res.t) :
  throwsTypeError (assessWellness result history).
Proof.
  rewrite assessWellness_unfold. unfold wellnessScoreOf, throwsTypeError.
  destruct (primaryLabel result) as [label | x] eqn:Hr; cbn [bind].
  - destruct (Nat.ltb 0 (List.length history)); [| eexists; reflexivity].
    unfold recentPositiveCount.
    destruct (mapM _ (slice_last 5 history)) as [flags | x] eqn:Hm; cbn [bind].
    + eexists. reflexivity.
    + destruct (positive_flags_throw _ Hm) as (msg & ->). eexists. reflexivity.
  - destruct (primaryLabel_throw result Hr) as (msg & ->). eexists. reflexivity.
Qed.

Lemma generateRecommendations_throws (result : Res.t) (history : list Res.t) :
  throwsTypeError (generateRecommendations result history).
Proof.
  unfold generateRecommendations, throwsTypeError.
  destruct (primaryLabel result) as [label | x] eqn:Hr; cbn [bind].
  - eexists. reflexivity.
  - destruct (primaryLabel_throw result Hr) as (msg & ->). eexists. reflexivity.
Qed.

Lemma trends_null_or_throw (Math_sqrt : num -> num) (history : list Res.t) :
  2 <= List.length history ->
  throwsTypeError (analyzeTrends Math_sqrt history).
Proof.
  intros Hlen. unfold analyzeTrends, throwsTypeError.
  apply Nat.ltb_ge in Hlen. rewrite Hlen.
  destruct (countEmotions (slice_last 10 history) []) as [counts | x] eqn:Hc;
    cbn [bind].
  - destruct (obj_keys counts); eexists; reflexivity.
  - destruct (countEmotions_throw _ _ Hc) as (msg & ->). eexists. reflexivity.
Qed.


(** The insight methods never return: [assessWellness],
    [generateRecommendations] and [getEmotionInsights] throw a [TypeError]
    on every input, because the objects they build call methods the class
    does not define.  On a result with a primary emotion and a history
    whose last five results have one, [assessWellness] throws when it calls
    [this.identifyWellnessFactors]; [getEmotionInsights] on a history of
    fewer than two results throws when [getMusicRecommendation] calls
    [this.getGenresForEmotion], before any wellness is assessed. *)
Theorem insight_methods_never_return :
  forall (Math_sqrt : num -> num) (result : Res.t) (history : list Res.t),
    throwsTypeError (assessWellness result history) /\
    throwsTypeError (generateRecommendations result history) /\
    throwsTypeError (getEmotionInsights Math_sqrt result history) /\
    (forall top,
        Res.primaryEmotion result = Some top ->
        (wellFormedHistory (slice_last 5 history) ->
         assessWellness result history
         = Throw (TypeError "this.identifyWellnessFactors is not a function")) /\
        (List.length history < 2 ->
         getEmotionInsights Math_sqrt result history
         = Throw (TypeError "this.getGenresForEmotion is not a function"))).
Proof.
  intros Math_sqrt result history.
  pose proof (assessWellness_throws result history) as Hw.
  pose proof (generateRecommendations_throws result history) as Hg.
  split; [exact Hw |]. split; [exact Hg |]. split.
  - unfold getEmotionInsights.
    destruct (Nat.lt_ge_cases (List.length history) 2) as [Hshort | Hlong].
    + rewrite (analyzeTrends_short Math_sqrt history Hshort). cbn [bind].
      destruct Hg as (msg & ->). exists msg. reflexivity.
    + destruct (trends_null_or_throw Math_sqrt history Hlong) as (msg & ->).
      exists msg. reflexivity.
  - intros top Htop. split.
    + intros Hwf. rewrite assessWellness_unfold.
      rewrite (wellnessScoreOf_value result history Htop Hwf). reflexivity.
    + intros Hshort. unfold getEmotionInsights.
      rewrite (analyzeTrends_short Math_sqrt history Hshort). cbn [bind].
      unfold generateRecommendations.
      rewrite (primaryLabel_some result Htop). reflexivity.
Qed.

(** ** Text encoding *)

Lemma lowerAscii_idempotent (c : ascii) : lowerAscii (lowerAscii c) = lowerAscii c.
Proof.
  destruct c as [[] [] [] [] [] [] [] []]; reflexivity.
Qed.

Lemma toLowerCase_idempotent (s : string) :
  toLowerCase (toLowerCase s) = toLowerCase s.
Proof.
  induction s as [| c rest IH]; simpl.
  - reflexivity.
  - rewrite lowerAscii_idempotent, IH. reflexivity.
Qed.

Lemma splitOnSpace_lower (s : string) :
  toLowerCase s = s ->
  Forall (fun token => toLowerCase token = token) (splitOnSpace s).
Proof.
  induction s as [| c rest IH]; intros Hs.
  - constructor; [reflexivity | constructor].
  - cbn [toLowerCase] in Hs. injection Hs as Hc Hrest.
    specialize (IH Hrest). cbn [splitOnSpace].
    destruct (Ascii.eqb c " ").
    + constructor; [reflexivity | exact IH].
    + destruct (splitOnSpace rest) as [| token tokens].
      * constructor; [| constructor].
        cbn [toLowerCase]. rewrite Hc. reflexivity.
      * inversion IH as [| ? ? Htoken Htokens]; subst.
        constructor; [| exact Htokens].
        cbn [toLowerCase]. rewrite Hc, Htoken. reflexivity.
Qed.

Lemma Forall_firstn {A} (P : A -> Prop) (n : nat) (l : list A) :
  Forall P l -> Forall P (firstn n l).
Proof.
  intros H. revert n.
  induction H as [| x l Hx _ IH]; intros [| n]; cbn [firstn]; auto.
Qed.

(** An inherited name ([toString], [hasOwnProperty], ...) is found under any
    token; of the lower-case tokens only [constructor] and [__proto__] are
    such names. *)
Lemma getTokenId_range (token : string) :
  match getTokenId token with
  | TokenId n => n <= 10
  | InheritedValue property =>
      property = token /\ In token inheritedNames /\
      (toLowerCase token = token ->
       token = "constructor" \/ token = "__proto__")
  end.
Proof.
  unfold getTokenId.
  destruct (obj_get vocab token) as [n |] eqn:Hget.
  - unfold vocab in Hget. cbn [obj_get] in Hget.
    repeat match type of Hget with
           | (if ?c then _ else _) = _ =>
               destruct c; [injection Hget as <-; lia |]
           end.
    discriminate.
  - destruct (existsb (String.eqb token) inheritedNames) eqn:Hin; [| lia].
    apply existsb_exists in Hin. destruct Hin as (name & Hname & Heq).
    apply String.eqb_eq in Heq. subst name.
    split; [reflexivity | split; [exact Hname |]].
    intros Hlower. unfold inheritedNames in Hname. cbn [In] in Hname.
    repeat match type of Hname with
           | _ \/ _ => destruct Hname as [Hname | Hname]
           end;
      try contradiction; subst token;
      first [ left; reflexivity | right; reflexivity | discriminate Hlower ].
Qed.

(** [encodeText] returns exactly 128 values for every text: the tokens
    past the 128th are dropped and a shorter text is padded with 0.  Every
    value is an id between 0 and 10, except for the tokens [constructor] and
    [__proto__], for which the lookup in the vocabulary object returns an
    inherited object instead of a number (the other inherited names have a
    capital letter, which no token keeps).  The encoding does not depend on
    the case of the letters; [getTokenId] itself does, and answers
    [toString] with the inherited function. *)
Theorem text_encoding_shape :
  forall text : string,
    let tokens := splitOnSpace (toLowerCase text) in
    List.length (encodeText text) = 128 /\
    Forall (fun v => match v with
                     | TokenId n => n <= 10
                     | InheritedValue property =>
                         property = "constructor" \/ property = "__proto__"
                     end)
           (encodeText text) /\
    (forall k, k < 128 -> k < List.length tokens ->
               nth_error (encodeText text) k
               = option_map getTokenId (nth_error tokens k)) /\
    (forall k, k < 128 -> List.length tokens <= k ->
               nth_error (encodeText text) k = Some (TokenId 0)) /\
    encodeText (toLowerCase text) = encodeText text /\
    getTokenId "toString" = InheritedValue "toString".
Proof.
  intros text tokens. unfold encodeText. fold tokens.
  assert (Hslice : Js.slice 0 128 tokens = firstn 128 tokens) by reflexivity.
  rewrite Hslice.
  assert (Hlen : List.length (map getTokenId (firstn 128 tokens))
                 = Nat.min 128 (List.length tokens))
    by (rewrite length_map, length_firstn; reflexivity).
  split; [| split; [| split; [| split; [| split]]]].
  - rewrite length_app, repeat_length, Hlen. lia.
  - apply Forall_app. split.
    + apply Forall_map.
      assert (Hlower : Forall (fun token => toLowerCase token = token)
                              (firstn 128 tokens))
        by (apply Forall_firstn, splitOnSpace_lower, toLowerCase_idempotent).
      revert Hlower. apply Forall_impl. intros token Hlower.
      pose proof (getTokenId_range token) as Hr.
      destruct (getTokenId token) as [n | property]; [exact Hr |].
      destruct Hr as (-> & _ & Hr). exact (Hr Hlower).
    + apply Forall_forall. intros v Hv. apply repeat_spec in Hv. subst v. lia.
  - intros k Hk Hkt.
    rewrite nth_error_app1 by (rewrite Hlen; lia).
    rewrite nth_error_map, nth_error_firstn.
    destruct (Nat.ltb_spec k 128) as [_ | Hge]; [reflexivity | lia].
  - intros k Hk Hkt.
    rewrite nth_error_app2 by (rewrite Hlen; lia).
    rewrite Hlen. apply nth_error_repeat. lia.
  - rewrite toLowerCase_idempotent. reflexivity.
  - reflexivity.
Qed.

(** ** Concrete runs of the further properties *)

Lemma calibrated_values_are_clamped_witness :
  Forall in_unit (applyCalibratedBias defaultCalibration sadVector "facial").
Proof.
  refine (proj2 (proj2
    (calibrated_values_are_clamped defaultCalibration sadVector "facial")) _ _ _).
  - reflexivity.
  - repeat constructor.
  - intros b Hb. injection Hb as <-. split; [simpl; lia | repeat constructor].
Defined.

Lemma calibration_without_bias_is_identity_witness :
  biasOf defaultCalibration "text" = None /\
  Forall2 Num.eqv (applyCalibratedBias defaultCalibration sadVector "text") sadVector.
Proof.
  split; [reflexivity |].
  refine (@calibration_without_bias_is_identity defaultCalibration sadVector
            "text" eq_refl eq_refl _).
  repeat constructor; simpl; lra.
Defined.


Lemma context_encoding_shape_witness :
  Js.get (encodeContext homeWorking sampleClock) 12 = zero.
Proof.
  refine (proj1 (proj2 (context_encoding_shape homeWorking sampleClock)) 12 _ _);
    lia.
Defined.

Lemma context_encoding_one_hot_witness :
  Js.get (encodeContext homeWorking sampleClock) 4 = one.
Proof.
  refine (proj2 (proj1
    (@context_encoding_one_hot homeWorking sampleClock 0 _)) _).
  - lia.
  - exists "working". split; reflexivity.
Defined.

Lemma fusion_input_width_witness :
  List.length
    (prepareFusionInput sampleEngine [facialReading; voiceReading] homeWorking
       sampleClock)
  = 7 * 2 + 25.
Proof.
  refine (proj2 (fusion_input_width sampleEngine [facialReading; voiceReading]
                   homeWorking sampleClock) _).
  repeat constructor.
Defined.

Lemma ranking_is_sorted_permutation_witness :
  Sorted atLeastAsLikely (h_all (analyzeEmotionHierarchy sadVector)).
Proof.
  refine (proj1 (proj2 (proj2 (ranking_is_sorted_permutation sadVector))) _).
  repeat constructor.
Defined.

Lemma primary_is_first_argmax_witness :
  exists i,
    i < 7 /\
    h_primary (analyzeEmotionHierarchy (map Fin happyRates))
      = Some (labelled (Fin (nth i happyRates 0%Q)) i).
Proof.
  destruct (@primary_is_first_argmax happyRates) as (i & _ & Hi & Hprimary & _).
  - discriminate.
  - exists i. split; [exact Hi | exact Hprimary].
Defined.

Lemma fused_result_shape_witness :
  exists r,
    fuseEmotions sampleEngine [facialReading] emptyContext sampleClock = Ok r /\
    List.length (Res.secondaryEmotions r) = 2.
Proof.
  eexists. split; [reflexivity |].
  refine (proj1 (proj2
    (@fused_result_shape sampleEngine [facialReading] emptyContext sampleClock
       _ eq_refl))).
Defined.

Lemma confidence_in_unit_interval_witness :
  in_unit
    (Conf.overall
       (calculateFusionConfidence [facialReading; voiceReading] sadVector)).
Proof.
  refine (proj1 (proj2 (proj2
    (confidence_in_unit_interval [facialReading; voiceReading] sadVector))
    _ _ _ _)).
  - discriminate.
  - repeat (apply Forall_cons; [vm_compute; split; discriminate |]).
    apply Forall_nil.
  - discriminate.
  - repeat (apply Forall_cons; [vm_compute; split; discriminate |]).
    apply Forall_nil.
Defined.







Lemma insight_methods_never_return_witness :
  getEmotionInsights sampleSqrt (resultWith "happy" d0_9) []
  = Throw (TypeError "this.getGenresForEmotion is not a function").
Proof.
  refine (proj2 (proj2 (proj2 (proj2
    (insight_methods_never_return sampleSqrt (resultWith "happy" d0_9) [])))
    _ eq_refl) _).
  simpl. lia.
Defined.

Lemma text_encoding_shape_witness :
  nth_error (encodeText "Happy") 1 = Some (TokenId 0).
Proof.
  refine (proj1 (proj2 (proj2 (proj2 (text_encoding_shape "Happy")))) 1 _ _).
  - lia.
  - simpl. lia.
Defined.
